(** * Sensor dashboard: synthetic series generator and rolling playback buffer

    A shallow embedding of [Model/sensor2_5.py]: the generator
    [generate_simulated_data], the three fetch wrappers, the tabular
    post-processor [process_sensor_data], the playback functions
    [simulate_real_time_data] and [update_real_time_buffer], and the two
    blocks of the page script that fetch a new batch.

    Conventions of the embedding.
    - A Python [float] is an IEEE binary64 number: Rocq's primitive [float].
    - A naive [datetime] is its number of microseconds since
      0001-01-01T00:00:00 (the instant [datetime.min]); a [timedelta] is a
      number of microseconds.  Both are bounded as in CPython, and arithmetic
      that leaves the range raises [OverflowError].
    - The module-level random generator, the wall clock, the error-level
      log, the errors shown on the page and [st.session_state] form the
      [World] that every effectful function threads.  Logging at the levels
      info and warning has no effect on any value and is left out.
    - A dict literal with fixed keys is a record; [base_values], a dict keyed
      by sensor id, is a [gmap].  A [DataFrame] is its column names and its
      rows in positional order; [st.session_state] is a record of optional
      entries.
    - The pandas calls whose result the program does not determine are a
      parameter, [Pandas]: the sort by timestamp, of which only the order
      of distinct timestamps is fixed, and the column conversions, each of
      which may raise.  Every function that reaches one of them takes the
      library as its first argument. *)

From Stdlib Require Import ZArith List Lia Sorted Permutation.
From Stdlib Require Import Floats.PrimFloat.
From stdpp Require Import base option list sorting gmap strings pretty.

#[local] Set Warnings "-inexact-float".
Open Scope Z_scope.

(** ** Exceptions, outcomes and the world *)

Inductive exn :=
  | OverflowError (msg : string)
  | KeyError (key : string)
  | TypeError (msg : string)
  | ValueError (msg : string).

(** [str(e)] as the handlers interpolate it in their messages. *)
Definition str_exn (e : exn) : string :=
  match e with
  | OverflowError msg => msg
  | KeyError key => "'" +:+ key +:+ "'"
  | TypeError msg => msg
  | ValueError msg => msg
  end.

(** What running a piece of code produces: a value, a raised exception, or
    nothing yet because the loop budget [fuel] was used up. *)
Inductive outcome (A : Type) :=
  | Returned (a : A)
  | Raised (e : exn)
  | OutOfFuel.
Arguments Returned {A} a.
Arguments Raised {A} e.
Arguments OutOfFuel {A}.

(** ** Data: readings, tables and the session *)

Definition datetime := Z.
Definition timedelta := Z.

(** One dict of the list that the generator returns. *)
Record data_point := mkPoint {
  id : string;
  timestamp : datetime;   (* the instant that [isoformat()] writes out *)
  voltage : float;
  current : float;
  status : string
}.

(** One row of a [DataFrame] built from such dicts; [row_power] is the cell
    of the derived column, absent until the column is assigned. *)
Record row := mkRow {
  row_id : string;
  row_timestamp : datetime;
  row_voltage : float;
  row_current : float;
  row_status : string;
  row_power : option float
}.

Record DataFrame := mkFrame {
  columns : list string;
  rows : list row
}.

(** [st.session_state]; a missing key is [None]. *)
Record SessionState := mkSession {
  sensor_data : option DataFrame;
  last_refresh : option datetime;
  simulation_index : option nat;
  real_time_buffer : option DataFrame
}.

Record World := mkWorld {
  rand_tape : nat -> float;   (* successive results of random.random() *)
  rand_pos : nat;             (* how many of them were consumed *)
  clock : datetime;           (* datetime.now() *)
  error_log : list string;    (* logger.error and logger.exception *)
  ui_errors : list string;    (* st.error *)
  session : SessionState      (* st.session_state *)
}.

Definition M (A : Type) : Type := World -> outcome A * World.

Definition ret {A} (a : A) : M A := fun w => (Returned a, w).

Definition bind {A B} (c : M A) (k : A -> M B) : M B :=
  fun w =>
    match c w with
    | (Returned a, w') => k a w'
    | (Raised e, w') => (Raised e, w')
    | (OutOfFuel, w') => (OutOfFuel, w')
    end.

Definition raise {A} (e : exn) : M A := fun w => (Raised e, w).

Definition out_of_fuel {A} : M A := fun w => (OutOfFuel, w).

(** [try: body / except Exception as e: handler e]. *)
Definition try_except {A} (body : M A) (handler : exn -> M A) : M A :=
  fun w =>
    match body w with
    | (Raised e, w') => handler e w'
    | r => r
    end.

Declare Scope py_scope.
Delimit Scope py_scope with py.
Notation "'do' x <- c ; k" := (bind c (fun x => k))
  (at level 10, x name, c at level 100, k at level 200) : py_scope.
Notation "'run' c ; k" := (bind c (fun _ => k))
  (at level 10, c at level 100, k at level 200) : py_scope.
Open Scope py_scope.

(** [random.random()]: the next number of the tape. *)
Definition random : M float :=
  fun w =>
    (Returned (rand_tape w (rand_pos w)),
     mkWorld (rand_tape w) (S (rand_pos w)) (clock w)
             (error_log w) (ui_errors w) (session w)).

(** [random.uniform(a, b)] is [a + (b - a) * random()] in CPython.  The
    bounds the program passes are small integers, exact as floats. *)
Definition uniform (a b : float) : M float :=
  do r <- random ;
  ret (a + (b - a) * r)%float.

(** [logger.error(msg)] *)
Definition log_error (msg : string) : M unit :=
  fun w =>
    (Returned tt,
     mkWorld (rand_tape w) (rand_pos w) (clock w)
             (error_log w ++ [msg]) (ui_errors w) (session w)).

(** [st.error(msg)] *)
Definition st_error (msg : string) : M unit :=
  fun w =>
    (Returned tt,
     mkWorld (rand_tape w) (rand_pos w) (clock w)
             (error_log w) (ui_errors w ++ [msg]) (session w)).

(** [logger.exception(error_msg); st.error(error_msg)], the pair of calls
    every outer handler makes. *)
Definition report_error (error_msg : string) : M unit :=
  run log_error error_msg ;
  st_error error_msg.

Definition datetime_now : M datetime := fun w => (Returned (clock w), w).

Definition get_session : M SessionState := fun w => (Returned (session w), w).

Definition put_session (ss : SessionState) : M unit :=
  fun w =>
    (Returned tt,
     mkWorld (rand_tape w) (rand_pos w) (clock w) (error_log w) (ui_errors w) ss).

(** ** Dates and durations *)

Definition US_PER_SECOND : Z := 1000000.
Definition US_PER_MINUTE : Z := 60 * US_PER_SECOND.
Definition US_PER_HOUR : Z := 60 * US_PER_MINUTE.
Definition US_PER_DAY : Z := 24 * US_PER_HOUR.

(** [datetime.max] is 9999-12-31T23:59:59.999999, day 3652059 of the
    proleptic calendar. *)
Definition DATETIME_MAX : Z := 3652059 * US_PER_DAY - 1.
Definition TIMEDELTA_MAX_DAYS : Z := 999999999.

Definition datetime_valid (t : datetime) : bool :=
  (0 <=? t) && (t <=? DATETIME_MAX).

(** [timedelta(minutes=m)] and [timedelta(days=d)]: the day count of the
    normalised duration must have magnitude at most 999999999. *)
Definition make_timedelta (us : Z) : M timedelta :=
  let days := us / US_PER_DAY in
  if (- TIMEDELTA_MAX_DAYS <=? days) && (days <=? TIMEDELTA_MAX_DAYS)
  then ret us
  else raise (OverflowError
                ("days=" +:+ pretty days +:+ "; must have magnitude <= 999999999")).

Definition timedelta_minutes (m : Z) : M timedelta := make_timedelta (m * US_PER_MINUTE).
Definition timedelta_days (d : Z) : M timedelta := make_timedelta (d * US_PER_DAY).

(** [t + d] and [t - d] on a datetime. *)
Definition datetime_add (t : datetime) (d : timedelta) : M datetime :=
  if datetime_valid (t + d) then ret (t + d)
  else raise (OverflowError "date value out of range").

Definition datetime_sub (t : datetime) (d : timedelta) : M datetime :=
  datetime_add t (- d).

(** [t.hour]. *)
Definition hour (t : datetime) : Z := (t / US_PER_HOUR) mod 24.

(** Days before 1 January of [year], and the ordinal of a calendar date,
    as [datetime(y, m, d, hh, mm)] computes them; used to write instants. *)
Definition is_leap (y : Z) : bool :=
  (y mod 4 =? 0) && (negb (y mod 100 =? 0) || (y mod 400 =? 0)).

Definition days_before_year (year : Z) : Z :=
  let y := year - 1 in y * 365 + y / 4 - y / 100 + y / 400.

Definition days_in_month (y m : Z) : Z :=
  if m =? 2 then (if is_leap y then 29 else 28)
  else if (m =? 4) || (m =? 6) || (m =? 9) || (m =? 11) then 30 else 31.

Definition days_before_month (y m : Z) : Z :=
  fold_left (fun acc k => acc + days_in_month y (Z.of_nat k))
            (seq 1 (Z.to_nat (m - 1))) 0.

Definition ymd2ord (y m d : Z) : Z := days_before_year y + days_before_month y m + d.

Definition mk_datetime (y m d hh mm : Z) : datetime :=
  (ymd2ord y m d - 1) * US_PER_DAY + hh * US_PER_HOUR + mm * US_PER_MINUTE.

(** ** The synthetic series generator *)

Record base := mkBase { voltage_base : float; current_base : float }.

Definition default_sensor_ids : list string :=
  ["sensor-001"; "sensor-002"; "sensor-003"].

(** [for sensor_id in sensor_ids: base_values[sensor_id] = {...}] *)
Fixpoint draw_base_values (sensor_ids : list string)
    (base_values : gmap string base) : M (gmap string base) :=
  match sensor_ids with
  | [] => ret base_values
  | sensor_id :: rest =>
      do vb <- uniform 110 125 ;
      do cb <- uniform 4 8 ;
      draw_base_values rest (<[sensor_id := mkBase vb cb]> base_values)
  end.

(** [base_values[sensor_id]] *)
Definition dict_get (base_values : gmap string base) (sensor_id : string) : M base :=
  match base_values !! sensor_id with
  | Some b => ret b
  | None => raise (KeyError sensor_id)
  end.

Definition evening (t : datetime) : bool := (18 <=? hour t) && (hour t <=? 22).

(** The body of the inner [for]: one reading of [sensor_id] at [current_time]. *)
Definition make_data_point (current_time : datetime)
    (base_values : gmap string base) (sensor_id : string) : M data_point :=
  do b <- dict_get base_values sensor_id ;
  do u <- uniform (-5) 5 ;
  let voltage := (voltage_base b + u)%float in
  do v <- uniform (-1) 1 ;
  let current := (current_base b + v)%float in
  let voltage := if evening current_time then (voltage * 0.98)%float else voltage in
  do r <- random ;
  ret (mkPoint sensor_id current_time voltage current
               (if (0.05 <? r)%float then "normal" else "warning")).

Fixpoint for_sensors (current_time : datetime) (base_values : gmap string base)
    (sensor_ids : list string) (data_points : list data_point)
    : M (list data_point) :=
  match sensor_ids with
  | [] => ret data_points
  | sensor_id :: rest =>
      do data_point <- make_data_point current_time base_values sensor_id ;
      for_sensors current_time base_values rest (data_points ++ [data_point])
  end.

(** [while current_time <= end_date: ...], at most [fuel] rounds. *)
Fixpoint while_loop (fuel : nat) (current_time end_date : datetime)
    (base_values : gmap string base) (sensor_ids : list string)
    (interval_minutes : Z) (data_points : list data_point)
    : M (list data_point) :=
  match fuel with
  | O => out_of_fuel
  | S fuel' =>
      if current_time <=? end_date then
        do data_points' <- for_sensors current_time base_values sensor_ids data_points ;
        do step <- timedelta_minutes interval_minutes ;
        do current_time' <- datetime_add current_time step ;
        while_loop fuel' current_time' end_date base_values sensor_ids
                   interval_minutes data_points'
      else ret data_points
  end.

(** [if not sensor_ids: sensor_ids = [...]]: [None] and the empty list alike. *)
Definition effective_sensor_ids (sensor_ids : option (list string)) : list string :=
  match sensor_ids with
  | None | Some [] => default_sensor_ids
  | Some ids => ids
  end.

Definition generate_simulated_data (fuel : nat) (start_date end_date : datetime)
    (sensor_ids : option (list string)) (interval_minutes : Z)
    : M (list data_point) :=
  let sensor_ids := effective_sensor_ids sensor_ids in
  do base_values <- draw_base_values sensor_ids ∅ ;
  while_loop fuel start_date end_date base_values sensor_ids interval_minutes [].


(** ** The fetch wrappers

    A wrapper returns a Python value that is a list or [None]; [None] is the
    [None] of [option]. *)

Definition fetch_all_sensor_data (fuel : nat) : M (option (list data_point)) :=
  try_except
    (do end_date <- datetime_now ;
     do week <- timedelta_days 7 ;
     do start_date <- datetime_sub end_date week ;
     do data <- generate_simulated_data fuel start_date end_date None 15 ;
     ret (Some data))
    (fun e =>
       let error_msg := "Error generating data: " +:+ str_exn e in
       run report_error error_msg ;
       ret (Some [])).

Definition fetch_sensor_data_by_id (fuel : nat) (sensor_id : string)
    : M (option (list data_point)) :=
  try_except
    (do end_date <- datetime_now ;
     do week <- timedelta_days 7 ;
     do start_date <- datetime_sub end_date week ;
     do data <- generate_simulated_data fuel start_date end_date (Some [sensor_id]) 15 ;
     ret (Some data))
    (fun e =>
       let error_msg :=
         "Error generating data for sensor " +:+ sensor_id +:+ ": " +:+ str_exn e in
       run report_error error_msg ;
       ret None).

(** [if sensor_id and sensor_id != "All"] *)
Definition names_one_sensor (sensor_id : option string) : option string :=
  match sensor_id with
  | Some s => if decide (s = "") then None
              else if decide (s = "All") then None else Some s
  | None => None
  end.

Definition fetch_sensor_data_in_range (fuel : nat) (start_date end_date : datetime)
    (sensor_id : option string) : M (option (list data_point)) :=
  try_except
    (do data <-
       match names_one_sensor sensor_id with
       | Some s => generate_simulated_data fuel start_date end_date (Some [s]) 15
       | None => generate_simulated_data fuel start_date end_date None 15
       end ;
     ret (Some data))
    (fun e =>
       let error_msg := "Error generating data in range: " +:+ str_exn e in
       run report_error error_msg ;
       ret (Some [])).

(** [len(x)] of a fetched value: [None] has no length. *)
Definition py_len {A} (x : option (list A)) : M nat :=
  match x with
  | Some l => ret (length l)
  | None => raise (TypeError "object of type 'NoneType' has no len()")
  end.

(** ** The tabular post-processor *)

(** [pd.DataFrame()] *)
Definition empty_frame : DataFrame := mkFrame [] [].

Definition row_of_point (p : data_point) : row :=
  mkRow (id p) (timestamp p) (voltage p) (current p) (status p) None.

(** [pd.DataFrame(data)] for a list of the generator's dicts: the columns are
    the keys in the order of the dict literal. *)
Definition frame_of_points (data : list data_point) : DataFrame :=
  match data with
  | [] => empty_frame
  | _ => mkFrame ["id"; "timestamp"; "voltage"; "current"; "status"]
                 (map row_of_point data)
  end.

(** [df.empty]: no rows or no columns. *)
Definition df_empty (df : DataFrame) : bool :=
  match rows df, columns df with
  | [], _ | _, [] => true
  | _, _ => false
  end.

(** [name in df.columns] *)
Definition has_column (name : string) (df : DataFrame) : bool :=
  bool_decide (name ∈ columns df).

(** [len(df)] *)
Definition df_len (df : DataFrame) : nat := length (rows df).

(** *** The library

    What the program takes from pandas beyond plain data access.

    - [df.sort_values('timestamp')] returns the rows in non-decreasing
      timestamp order.  The default algorithm is not stable: which of two
      rows with the same timestamp comes first is the library's choice, so
      the sort is a parameter of which only this much is known.
    - [pd.to_datetime], [.astype(float)] and [.astype(str)] return the
      converted column or raise.  The program wraps each call in its own
      [try], so each is taken to raise whenever the library decides to:
      [None] for a call that returns, [Some e] for one that raises [e].  In
      a table built from the generator's dicts a converted cell denotes the
      value the cell held: the instant of an ISO string, the float of a
      float, the string of a string. *)

Definition timestamp_le (a b : row) : Prop := row_timestamp a <= row_timestamp b.

Record Pandas := mkPandas {
  sort_values : list row -> list row;
  sort_values_sorted : forall l, StronglySorted timestamp_le (sort_values l);
  sort_values_perm : forall l, Permutation (sort_values l) l;
  to_datetime_fault : list datetime -> option exn;
  astype_float_fault : list float -> option exn;
  astype_str_fault : list string -> option exn
}.

(** A conversion of the cells of one column. *)
Definition convert {A} (fault : option exn) (cells : list A) : M (list A) :=
  match fault with
  | Some e => raise e
  | None => ret cells
  end.

(** [pd.to_datetime(column)] *)
Definition to_datetime (pd : Pandas) (cells : list datetime) : M (list datetime) :=
  convert (to_datetime_fault pd cells) cells.

(** [column.astype(float)] *)
Definition astype_float (pd : Pandas) (cells : list float) : M (list float) :=
  convert (astype_float_fault pd cells) cells.

(** [column.astype(str)] *)
Definition astype_str (pd : Pandas) (cells : list string) : M (list string) :=
  convert (astype_str_fault pd cells) cells.

(** [a * b] for two float columns of the same table: the products cell by
    cell.  The product of two floats is always defined. *)
Definition multiply (a b : list float) : list float :=
  zip_with (fun x y => (x * y)%float) a b.

(** *** Columns *)

(** [df[name]] for each of the columns the program reads. *)
Definition column {A} (cell : row -> A) (df : DataFrame) : list A :=
  map cell (rows df).

Definition with_id (r : row) (s : string) : row :=
  mkRow s (row_timestamp r) (row_voltage r) (row_current r) (row_status r) (row_power r).

Definition with_timestamp (r : row) (t : datetime) : row :=
  mkRow (row_id r) t (row_voltage r) (row_current r) (row_status r) (row_power r).

Definition with_voltage (r : row) (v : float) : row :=
  mkRow (row_id r) (row_timestamp r) v (row_current r) (row_status r) (row_power r).

Definition with_current (r : row) (c : float) : row :=
  mkRow (row_id r) (row_timestamp r) (row_voltage r) c (row_status r) (row_power r).

Definition with_power (r : row) (p : float) : row :=
  mkRow (row_id r) (row_timestamp r) (row_voltage r) (row_current r) (row_status r)
        (Some p).

(** [df[name] = cells]: the cells go into the rows in order; the columns
    stay when [name] is one of them, else [name] is appended. *)
Definition assign_column {A} (name : string) (set : row -> A -> row) (cells : list A)
    (df : DataFrame) : DataFrame :=
  mkFrame (if has_column name df then columns df else columns df ++ [name])
          (zip_with set (rows df) cells).

(** [try: df[...] = ... / except Exception as e: logger.error(prefix + str(e))]:
    after a failure the table is as it was. *)
Definition guarded (body : M DataFrame) (error_prefix : string) (df : DataFrame)
    : M DataFrame :=
  try_except body
    (fun e =>
       run log_error (error_prefix +:+ str_exn e) ;
       ret df).

(** *** [process_sensor_data] *)

Definition process_sensor_data (pd : Pandas) (data : option (list data_point))
    : M DataFrame :=
  try_except
    (match data with
     | None | Some [] => ret empty_frame
     | Some data =>
         let df := frame_of_points data in
         if df_empty df then ret df
         else
           do df <- (if has_column "timestamp" df then
                       guarded
                         (do cells <- to_datetime pd (column row_timestamp df) ;
                          ret (assign_column "timestamp" with_timestamp cells df))
                         "Error converting timestamps: " df
                     else ret df) ;
           do df <- (if has_column "voltage" df then
                       guarded
                         (do cells <- astype_float pd (column row_voltage df) ;
                          ret (assign_column "voltage" with_voltage cells df))
                         "Error converting voltage: " df
                     else ret df) ;
           do df <- (if has_column "current" df then
                       guarded
                         (do cells <- astype_float pd (column row_current df) ;
                          ret (assign_column "current" with_current cells df))
                         "Error converting current: " df
                     else ret df) ;
           do df <- (if has_column "voltage" df && has_column "current" df then
                       guarded
                         (ret (assign_column "power" with_power
                                 (multiply (column row_voltage df) (column row_current df))
                                 df))
                         "Error calculating power: " df
                     else ret df) ;
           do df <- (if has_column "id" df then
                       guarded
                         (do cells <- astype_str pd (column row_id df) ;
                          ret (assign_column "id" with_id cells df))
                         "Error converting id: " df
                     else ret df) ;
           ret df
     end)
    (fun e =>
       let error_msg := "Error in process_sensor_data: " +:+ str_exn e in
       run report_error error_msg ;
       ret empty_frame).

(** ** Playback: the cursor and the rolling buffer *)

(** [df.sort_values('timestamp')]: the same columns, the rows as the
    library's sort orders them. *)
Definition sort_values_timestamp (pd : Pandas) (df : DataFrame) : DataFrame :=
  mkFrame (columns df) (sort_values pd (rows df)).

(** [df.iloc[start:stop]] for non-negative bounds. *)
Definition iloc (df : DataFrame) (start stop : nat) : DataFrame :=
  mkFrame (columns df) (take (stop - start) (drop start (rows df))).

(** [df.iloc[-n:]]: the last [n] rows, all of them when there are fewer. *)
Definition iloc_last (df : DataFrame) (n : nat) : DataFrame :=
  mkFrame (columns df) (drop (length (rows df) - n) (rows df)).

(** [pd.concat([a, b])]: the rows of [a] then those of [b], over the union
    of the columns. *)
Definition concat_frames (a b : DataFrame) : DataFrame :=
  mkFrame (columns a ++ filter (fun c => c ∉ columns a) (columns b))
          (rows a ++ rows b).

Definition set_simulation_index (ss : SessionState) (i : nat) : SessionState :=
  mkSession (sensor_data ss) (last_refresh ss) (Some i) (real_time_buffer ss).

Definition set_real_time_buffer (ss : SessionState) (b : option DataFrame)
    : SessionState :=
  mkSession (sensor_data ss) (last_refresh ss) (simulation_index ss) b.

Definition set_sensor_data (ss : SessionState) (df : DataFrame) : SessionState :=
  mkSession (Some df) (last_refresh ss) (simulation_index ss) (real_time_buffer ss).

Definition set_last_refresh (ss : SessionState) (t : datetime) : SessionState :=
  mkSession (sensor_data ss) (Some t) (simulation_index ss) (real_time_buffer ss).

(** The cursor and the speed are non-negative integers: the cursor is only
    ever assigned 0 or a remainder modulo a positive length, the speed is the
    value of a slider from 1 to 10.  The result is the returned slice
    ([None] for a bare [return]) and the session afterwards. *)
Definition simulate_real_time_data (pd : Pandas) (df : DataFrame)
    (simulation_speed : nat) (ss : SessionState) : option DataFrame * SessionState :=
  if df_empty df || negb (has_column "timestamp" df) then (None, ss)
  else
    let df := sort_values_timestamp pd df in
    let ss := match simulation_index ss with
              | None => set_simulation_index ss 0
              | Some _ => ss
              end in
    let index := default 0%nat (simulation_index ss) in
    let index := if (df_len df <=? index)%nat then 0%nat else index in
    let data_point := iloc df index (index + simulation_speed) in
    let ss := set_simulation_index ss ((index + simulation_speed) mod df_len df) in
    (Some data_point, ss).

Definition MAX_BUFFER_SIZE : nat := 100.

Definition update_real_time_buffer (new_data : DataFrame) (ss : SessionState)
    : SessionState :=
  match real_time_buffer ss with
  | None => set_real_time_buffer ss (Some new_data)
  | Some old =>
      let buffer := concat_frames old new_data in
      let buffer := if (MAX_BUFFER_SIZE <? df_len buffer)%nat
                    then iloc_last buffer MAX_BUFFER_SIZE else buffer in
      set_real_time_buffer ss (Some buffer)
  end.

(** ** The page script: the blocks that touch the batch, cursor and buffer *)

(** The widget values of one run of the script. *)
Record Controls := mkControls {
  auto_refresh : bool;
  refresh_interval : Z;        (* seconds, slider 5..60 *)
  simulation_mode : bool;
  simulation_speed : nat;      (* slider 1..10 *)
  start_datetime : datetime;
  end_datetime : datetime;
  selected_sensor_id : string;
  fetch_clicked : bool         (* st.sidebar.button("Fetch Data") *)
}.

(** The fetch both the button and the auto-refresh make:
    [if selected_sensor_id == "All": ... else: ...]. *)
Definition fetch_selected (fuel : nat) (c : Controls) : M (option (list data_point)) :=
  if decide (selected_sensor_id c = "All")
  then fetch_sensor_data_in_range fuel (start_datetime c) (end_datetime c) None
  else fetch_sensor_data_in_range fuel (start_datetime c) (end_datetime c)
                                  (Some (selected_sensor_id c)).

(** [st.session_state['sensor_data'] = df;
     st.session_state['last_refresh'] = datetime.now()] *)
Definition store_batch (df : DataFrame) : M unit :=
  do ss <- get_session ;
  run put_session (set_sensor_data ss df) ;
  do now <- datetime_now ;
  do ss <- get_session ;
  put_session (set_last_refresh ss now).

(** [if 'simulation_index' in st.session_state: ... = 0] *)
Definition reset_simulation_index : M unit :=
  do ss <- get_session ;
  match simulation_index ss with
  | Some _ => put_session (set_simulation_index ss 0)
  | None => ret tt
  end.

(** [if 'real_time_buffer' in st.session_state: del ...] *)
Definition clear_real_time_buffer : M unit :=
  do ss <- get_session ;
  match real_time_buffer ss with
  | Some _ => put_session (set_real_time_buffer ss None)
  | None => ret tt
  end.

(** [if st.sidebar.button("Fetch Data"): ...] *)
Definition fetch_button_block (pd : Pandas) (fuel : nat) (c : Controls) : M unit :=
  if fetch_clicked c then
    try_except
      (do sensor_data <- fetch_selected fuel c ;
       do _ <- py_len sensor_data ;
       do df <- process_sensor_data pd sensor_data ;
       run store_batch df ;
       run reset_simulation_index ;
       run clear_real_time_buffer ;
       do _ <- py_len sensor_data ;
       ret tt)
      (fun e => report_error ("Error during data generation: " +:+ str_exn e))
  else ret tt.

(** [if 'sensor_data' not in st.session_state: ...] *)
Definition initial_load_block (pd : Pandas) (fuel : nat) : M unit :=
  do ss <- get_session ;
  match sensor_data ss with
  | Some _ => ret tt
  | None =>
      try_except
        (do sensor_data <- fetch_all_sensor_data fuel ;
         do _ <- py_len sensor_data ;
         do df <- process_sensor_data pd sensor_data ;
         store_batch df)
        (fun e =>
           run report_error ("Error during initial data generation: " +:+ str_exn e) ;
           store_batch empty_frame)
  end.

(** [if auto_refresh and not simulation_mode: ...].  The elapsed time is
    compared in microseconds: [total_seconds() > refresh_interval] for an
    integer number of seconds. *)
Definition auto_refresh_block (pd : Pandas) (fuel : nat) (c : Controls) : M unit :=
  if auto_refresh c && negb (simulation_mode c) then
    do ss <- get_session ;
    match last_refresh ss with
    | Some last =>
        do now <- datetime_now ;
        if refresh_interval c * US_PER_SECOND <? now - last then
          try_except
            (do sensor_data <- fetch_selected fuel c ;
             do df <- process_sensor_data pd sensor_data ;
             store_batch df)
            (fun e => report_error ("Error during auto-refresh: " +:+ str_exn e))
        else ret tt
    | None => ret tt
    end
  else ret tt.

(** [new_data_point is not None and not new_data_point.empty]: the test by
    which the caller of [simulate_real_time_data] tells a slice with rows
    from an empty one. *)
Definition has_new_rows (new_data_point : option DataFrame) : bool :=
  match new_data_point with
  | Some d => negb (df_empty d)
  | None => false
  end.

(** [if simulation_mode and 'sensor_data' in st.session_state and not
    st.session_state['sensor_data'].empty: ...] *)
Definition simulation_block (pd : Pandas) (c : Controls) : M unit :=
  do ss <- get_session ;
  match sensor_data ss with
  | Some base_df =>
      if simulation_mode c && negb (df_empty base_df) then
        let '(new_data_point, ss') :=
          simulate_real_time_data pd base_df (simulation_speed c) ss in
        run put_session ss' ;
        if has_new_rows new_data_point then
          match new_data_point with
          | Some d =>
              do ss <- get_session ;
              run put_session (update_real_time_buffer d ss) ;
              do now <- datetime_now ;
              do ss <- get_session ;
              put_session (set_last_refresh ss now)
          | None => ret tt
          end
        else ret tt
      else ret tt
  | None => ret tt
  end.

(** One run of the script, as far as the session is concerned. *)
Definition run_script (pd : Pandas) (fuel : nat) (c : Controls) : M unit :=
  run fetch_button_block pd fuel c ;
  run initial_load_block pd fuel ;
  run auto_refresh_block pd fuel c ;
  simulation_block pd c.

(** ** The sensor select box *)

(** [series.unique()]: the values of a column in the order in which they
    first appear. *)
Fixpoint unique (l : list string) : list string :=
  match l with
  | [] => []
  | x :: rest => x :: filter (fun y => y <> x) (unique rest)
  end.

(** The options of the "Sensor ID" select box, computed from the batch the
    previous run left:
    [sensor_ids = ["All"]], extended by the unique ids of a non-empty batch
    that has an [id] column. *)
Definition sensor_id_options (ss : SessionState) : list string :=
  match sensor_data ss with
  | Some df =>
      if negb (df_empty df) then
        if has_column "id" df then "All" :: unique (map row_id (rows df))
        else ["All"]
      else ["All"]
  | None => ["All"]
  end.

(** * Vocabulary of the statements

    Functions that name what the program computes (the readings a call
    emits, the sample instants, the rows appended so far) and the concrete
    inputs on which the statements are run. *)

(** ** The random draws *)

(** The world after [n] more draws of the random generator. *)
Definition skip_draws (n : nat) (w : World) : World :=
  mkWorld (rand_tape w) (n + rand_pos w) (clock w)
          (error_log w) (ui_errors w) (session w).

(** The value [random.uniform(a, b)] takes when the generator stands at
    position [p] of [tape]. *)
Definition uniform_at (a b : float) (tape : nat -> float) (p : nat) : float :=
  (a + (b - a) * tape p)%float.

#[local] Instance base_inhabited : Inhabited base := populate (mkBase 0 0).

(** ** The readings of a call *)

(** The reading of [sensor_id] at instant [t] when the generator stands at [p]. *)
Definition point_at (t : datetime) (b : base) (sensor_id : string)
    (tape : nat -> float) (p : nat) : data_point :=
  let v := (voltage_base b + uniform_at (-5) 5 tape p)%float in
  mkPoint sensor_id t
          (if evening t then (v * 0.98)%float else v)
          (current_base b + uniform_at (-1) 1 tape (S p))%float
          (if (0.05 <? tape (S (S p)))%float then "normal" else "warning").

(** One round of the inner loop, and [m] rounds of the outer one. *)
Fixpoint block (t : datetime) (bv : gmap string base) (tape : nat -> float)
    (p : nat) (ids : list string) : list data_point :=
  match ids with
  | [] => []
  | sid :: rest => point_at t (bv !!! sid) sid tape p :: block t bv tape (3 + p) rest
  end.

Fixpoint series (m : nat) (t : datetime) (step : timedelta) (bv : gmap string base)
    (tape : nat -> float) (p : nat) (ids : list string) : list data_point :=
  match m with
  | O => []
  | S m' => block t bv tape p ids
            ++ series m' (t + step) step bv tape (3 * length ids + p) ids
  end.

(** The dict of baselines after the first loop. *)
Fixpoint base_values_of (ids : list string) (bv : gmap string base)
    (tape : nat -> float) (p : nat) : gmap string base :=
  match ids with
  | [] => bv
  | sid :: rest =>
      base_values_of rest
        (<[sid := mkBase (uniform_at 110 125 tape p) (uniform_at 4 8 tape (S p))]> bv)
        tape (2 + p)
  end.

(** The number of sample instants [start, start + step, ...] up to [end_date]. *)
Definition n_instants (start_date end_date : datetime) (step : timedelta) : nat :=
  Z.to_nat ((end_date - start_date) / step + 1).

(** [m] instants [t, t + step, ...]; the sample instants of a call are the
    first [n_instants] of them. *)
Fixpoint instants (m : nat) (t : datetime) (step : timedelta) : list datetime :=
  match m with
  | O => []
  | S m' => t :: instants m' (t + step) step
  end.

Definition sample_instants (start_date end_date : datetime) (step : timedelta)
    : list datetime :=
  instants (n_instants start_date end_date step) start_date step.

Definition key (r : data_point) : datetime * string := (timestamp r, id r).

(** The calendar covers a call when the start is a valid instant and so is
    the instant one step after the last sample, which the loop computes
    before it stops. *)
Definition stays_in_calendar (start_date end_date : datetime) (step : timedelta) : Prop :=
  0 <= start_date
  /\ start_date + Z.of_nat (n_instants start_date end_date step) * step <= DATETIME_MAX.

(** ** Worlds and tables to run the program on *)

Definition session0 : SessionState := mkSession None None None None.

(** A world whose random generator alternates 0.25 and 0.75, at noon of
    2024-01-01, with nothing logged and an empty session. *)
Definition world0 : World :=
  mkWorld (fun n => if Nat.even n then 0.25%float else 0.75%float) 0
          (mk_datetime 2024 1 1 12 0) [] [] session0.

(** ** Two libraries to run the program on *)

(** Insertion into a list sorted by timestamp, before the first row that is
    not earlier. *)
Fixpoint insert_by_timestamp (r : row) (l : list row) : list row :=
  match l with
  | [] => [r]
  | x :: l' =>
      if row_timestamp r <=? row_timestamp x then r :: x :: l'
      else x :: insert_by_timestamp r l'
  end.

(** A library that sorts by insertion and whose conversions all return. *)
Definition pandas_returning : Pandas.
Proof.
  refine (mkPandas (foldr insert_by_timestamp []) _ _
                   (fun _ => None) (fun _ => None) (fun _ => None)).
  - assert (Hperm : forall r l, Permutation (insert_by_timestamp r l) (r :: l)).
    { intros r l. induction l as [|x l IH]; cbn; [reflexivity|].
      destruct (row_timestamp r <=? row_timestamp x); [reflexivity|].
      rewrite IH. apply perm_swap. }
    intros l. induction l as [|r l IH]; cbn; [constructor|].
    revert IH. generalize (foldr insert_by_timestamp [] l). clear l.
    induction 1 as [|x l Hl IH Hx]; cbn; [repeat constructor|].
    destruct (Z.leb_spec (row_timestamp r) (row_timestamp x)) as [Hle|Hgt].
    + constructor; [now constructor|]. constructor; [exact Hle|].
      eapply Forall_impl; [exact Hx|]. unfold timestamp_le. cbn. intros; lia.
    + constructor; [exact IH|].
      rewrite (Hperm r l). constructor; [|exact Hx].
      unfold timestamp_le. lia.
  - intros l. induction l as [|r l IH]; cbn; [reflexivity|].
    rewrite <- IH at 2. generalize (foldr insert_by_timestamp [] l). clear.
    intros l. induction l as [|x l IH]; cbn; [reflexivity|].
    destruct (row_timestamp r <=? row_timestamp x); [reflexivity|].
    rewrite IH. apply perm_swap.
Defined.

(** A library that sorts in the same way and whose conversions all raise. *)
Definition pandas_raising : Pandas :=
  mkPandas (sort_values pandas_returning)
           (sort_values_sorted pandas_returning)
           (sort_values_perm pandas_returning)
           (fun _ => Some (ValueError "Unknown datetime string format"))
           (fun _ => Some (ValueError "could not convert string to float"))
           (fun _ => Some (TypeError "cannot convert the series to str")).

(** ** Counts, order and buffers *)

(** The count the specification states: [ceil((end - start) / interval) + 1]. *)
Definition ceil_div (a b : Z) : Z := - ((- a) / b).

Definition stated_count (start_date end_date : datetime) (interval : Z) : Z :=
  ceil_div (end_date - start_date) (interval * US_PER_MINUTE) + 1.

(** [n] rows numbered from [first]; row number [i] has the timestamp of
    minute [i]. *)
Definition numbered_rows (first n : nat) : list row :=
  map (fun i => mkRow "s1" (Z.of_nat i * US_PER_MINUTE) 120 5 "normal" (Some 600%float))
      (seq first n).

Definition numbered_frame (first n : nat) : DataFrame :=
  mkFrame ["id"; "timestamp"; "voltage"; "current"; "status"; "power"]
          (numbered_rows first n).

(** A sequence of [update_real_time_buffer] calls, one per slice. *)
Definition append_all (slices : list DataFrame) (ss : SessionState) : SessionState :=
  foldl (fun s d => update_real_time_buffer d s) ss slices.

(** All the rows appended so far, in arrival order. *)
Definition appended_rows (slices : list DataFrame) : list row :=
  concat (map rows slices).

(** The last [n] elements of [l], all of [l] when it has fewer. *)
Definition last_rows {A} (n : nat) (l : list A) : list A := drop (length l - n) l.

(** The row that post-processing makes of a reading. *)
Definition processed_row (p : data_point) : row :=
  mkRow (id p) (timestamp p) (voltage p) (current p) (status p)
        (Some (voltage p * current p)%float).

(** The world after [logger.error] was called with each of [msgs] in turn. *)
Definition logged (msgs : list string) (w : World) : World :=
  foldl (fun w msg => snd (log_error msg w)) w msgs.

(** What a guarded conversion logs: nothing when the call returns. *)
Definition fault_message (error_prefix : string) (fault : option exn) : list string :=
  match fault with
  | Some e => [error_prefix +:+ str_exn e]
  | None => []
  end.

(** The messages that post-processing logs on a fetched value, in order.  No
    conversion is attempted on [None] or on an empty list. *)
Definition conversion_errors (pd : Pandas) (data : option (list data_point))
    : list string :=
  match data with
  | None | Some [] => []
  | Some data =>
      fault_message "Error converting timestamps: "
                    (to_datetime_fault pd (map timestamp data))
      ++ fault_message "Error converting voltage: "
                       (astype_float_fault pd (map voltage data))
      ++ fault_message "Error converting current: "
                       (astype_float_fault pd (map current data))
      ++ fault_message "Error converting id: "
                       (astype_str_fault pd (map id data))
  end.

(** A world whose clock stands at [datetime.max]. *)
Definition world_late : World :=
  mkWorld (rand_tape world0) 0 DATETIME_MAX [] [] session0.

(** ** Frame conditions *)

(** A computation that leaves the session as it found it. *)
Definition keeps_session {A} (c : M A) : Prop :=
  forall w, session (snd (c w)) = session w.

(** A computation that leaves the cursor and the buffer as it found them. *)
Definition keeps_playback {A} (c : M A) : Prop :=
  forall w,
    simulation_index (session (snd (c w))) = simulation_index (session w)
    /\ real_time_buffer (session (snd (c w))) = real_time_buffer (session w).

(** ** A session in the middle of a playback *)

(** A session in the middle of a playback: a batch of 100 rows fetched a
    minute ago, the cursor at 57, seven rows in the buffer. *)
Definition session_playing : SessionState :=
  mkSession (Some (numbered_frame 0 100))
            (Some (mk_datetime 2024 1 1 11 59))
            (Some 57%nat)
            (Some (numbered_frame 50 7)).

Definition world_playing : World :=
  mkWorld (rand_tape world0) 0 (mk_datetime 2024 1 1 12 0) [] [] session_playing.

(** Auto-refresh every 30 seconds, simulation off, the hour from 00:00 to
    01:00 of 2024-01-01 for all sensors; the button not pressed. *)
Definition controls_auto : Controls :=
  mkControls true 30 false 1 (mk_datetime 2024 1 1 0 0) (mk_datetime 2024 1 1 1 0)
             "All" false.

(** The same controls with the button pressed. *)
Definition controls_button : Controls :=
  mkControls true 30 false 1 (mk_datetime 2024 1 1 0 0) (mk_datetime 2024 1 1 1 0)
             "All" true.

(** ** Playback over several runs of the script *)

(** [k] successive calls of [simulate_real_time_data] on the same batch,
    each on the session the previous one left. *)
Fixpoint ticks (pd : Pandas) (k : nat) (df : DataFrame) (simulation_speed : nat)
    (ss : SessionState) : SessionState :=
  match k with
  | O => ss
  | S k' => ticks pd k' df simulation_speed
                  (snd (simulate_real_time_data pd df simulation_speed ss))
  end.

(** ** Properties of a session that the script keeps *)

(** A computation under which a property of the session persists. *)
Definition preserves (P : SessionState -> Prop) {A} (c : M A) : Prop :=
  forall w, P (session w) -> P (session (snd (c w))).

(** The buffer, when there is one, holds at most [MAX_BUFFER_SIZE] rows. *)
Definition buffer_within_capacity (ss : SessionState) : Prop :=
  forall b, real_time_buffer ss = Some b -> (df_len b <= MAX_BUFFER_SIZE)%nat.

(** The cursor a call of [simulate_real_time_data] starts from: 0 when the
    session has none or one past the end of the batch. *)
Definition starting_cursor (df : DataFrame) (ss : SessionState) : nat :=
  match simulation_index ss with
  | Some c => if (df_len df <=? c)%nat then 0%nat else c
  | None => 0%nat
  end.

(** [k] runs of the simulation block, one after the other. *)
Fixpoint simulation_ticks (pd : Pandas) (k : nat) (c : Controls) : M unit :=
  match k with
  | O => ret tt
  | S k' => run simulation_block pd c ; simulation_ticks pd k' c
  end.

(** The rows of the buffer, none when there is no buffer. *)
Definition buffer_rows (ss : SessionState) : list row :=
  match real_time_buffer ss with
  | Some b => rows b
  | None => []
  end.

(** * Verification *)

(** ** Running the monad *)

Lemma bind_returned {A B} (c : M A) (k : A -> M B) w a w' :
  c w = (Returned a, w') -> bind c k w = k a w'.
Proof. intros H. unfold bind. now rewrite H. Qed.

Lemma bind_raised {A B} (c : M A) (k : A -> M B) w e w' :
  c w = (Raised e, w') -> bind c k w = (Raised e, w').
Proof. intros H. unfold bind. now rewrite H. Qed.

Lemma bind_inv_returned {A B} (c : M A) (k : A -> M B) w b w' :
  bind c k w = (Returned b, w') ->
  exists a w1, c w = (Returned a, w1) /\ k a w1 = (Returned b, w').
Proof.
  unfold bind. destruct (c w) as [[a|e|] w1]; intros H; try discriminate.
  now exists a, w1.
Qed.

Lemma try_except_returned {A} (body : M A) handler w a w' :
  body w = (Returned a, w') -> try_except body handler w = (Returned a, w').
Proof. intros H. unfold try_except. now rewrite H. Qed.

Lemma try_except_raised {A} (body : M A) handler w e w' :
  body w = (Raised e, w') -> try_except body handler w = handler e w'.
Proof. intros H. unfold try_except. now rewrite H. Qed.

Lemma skip_draws_0 w : skip_draws 0 w = w.
Proof. now destruct w. Qed.

Lemma skip_draws_skip_draws a b w :
  skip_draws a (skip_draws b w) = skip_draws (a + b) w.
Proof. unfold skip_draws; cbn. f_equal. lia. Qed.

Lemma random_run w :
  random w = (Returned (rand_tape w (rand_pos w)), skip_draws 1 w).
Proof. reflexivity. Qed.

Lemma uniform_run a b w :
  uniform a b w = (Returned (uniform_at a b (rand_tape w) (rand_pos w)), skip_draws 1 w).
Proof. reflexivity. Qed.

(** ** What the generator emits *)

Lemma draw_base_values_run ids : forall bv w,
  draw_base_values ids bv w
  = (Returned (base_values_of ids bv (rand_tape w) (rand_pos w)),
     skip_draws (2 * length ids) w).
Proof.
  induction ids as [|sid rest IH]; intros bv w.
  - cbn. now rewrite skip_draws_0.
  - cbn [draw_base_values].
    rewrite (bind_returned _ _ _ _ _ (uniform_run _ _ w)).
    rewrite (bind_returned _ _ _ _ _ (uniform_run _ _ _)).
    rewrite IH, skip_draws_skip_draws, skip_draws_skip_draws. cbn [length].
    f_equal. f_equal. lia.
Qed.

Lemma base_values_of_keeps ids : forall bv tape p sid,
  is_Some (bv !! sid) -> is_Some (base_values_of ids bv tape p !! sid).
Proof.
  induction ids as [|x rest IH]; intros bv tape p sid H; cbn; [done|].
  apply IH. destruct (decide (x = sid)) as [->|Hne].
  - rewrite lookup_insert_eq. eauto.
  - now rewrite lookup_insert_ne.
Qed.

Lemma base_values_of_covers ids : forall bv tape p sid,
  sid ∈ ids -> is_Some (base_values_of ids bv tape p !! sid).
Proof.
  induction ids as [|x rest IH]; intros bv tape p sid H; [by inversion H|].
  cbn. apply elem_of_cons in H as [->|H].
  - apply base_values_of_keeps. rewrite lookup_insert_eq. eauto.
  - now apply IH.
Qed.

Lemma make_data_point_run t bv sid b w :
  bv !! sid = Some b ->
  make_data_point t bv sid w
  = (Returned (point_at t b sid (rand_tape w) (rand_pos w)), skip_draws 3 w).
Proof.
  intros Hb. unfold make_data_point, dict_get. rewrite Hb. reflexivity.
Qed.

Lemma make_data_point_missing t bv sid w :
  bv !! sid = None -> make_data_point t bv sid w = (Raised (KeyError sid), w).
Proof.
  intros Hb. unfold make_data_point, dict_get. rewrite Hb. reflexivity.
Qed.

Lemma for_sensors_run t bv ids : forall data w,
  (forall sid, sid ∈ ids -> is_Some (bv !! sid)) ->
  for_sensors t bv ids data w
  = (Returned (data ++ block t bv (rand_tape w) (rand_pos w) ids),
     skip_draws (3 * length ids) w).
Proof.
  induction ids as [|sid rest IH]; intros data w Hin.
  - cbn. now rewrite skip_draws_0, app_nil_r.
  - cbn [for_sensors block].
    destruct (Hin sid) as [b Hb]; [left|].
    rewrite (bind_returned _ _ _ _ _ (make_data_point_run t bv sid b w Hb)).
    rewrite IH by (intros; apply Hin; now right).
    rewrite skip_draws_skip_draws, <- app_assoc. cbn [length app].
    rewrite (lookup_total_correct _ _ _ Hb).
    f_equal. f_equal. lia.
Qed.

Lemma block_length t bv tape ids : forall p, length (block t bv tape p ids) = length ids.
Proof. induction ids as [|x r IH]; intros p; cbn; [done|]. now rewrite IH. Qed.

Lemma series_length m : forall t step bv tape p ids,
  length (series m t step bv tape p ids) = (m * length ids)%nat.
Proof.
  induction m as [|m IH]; intros; cbn [series]; [done|].
  rewrite length_app, block_length, IH. lia.
Qed.

Lemma n_instants_past t end_date step :
  0 < step -> end_date < t -> n_instants t end_date step = 0%nat.
Proof.
  intros Hs Ht. unfold n_instants.
  assert ((end_date - t) / step < 0) by (apply Z.div_lt_upper_bound; lia).
  lia.
Qed.

Lemma n_instants_step t end_date step :
  0 < step -> t <= end_date ->
  n_instants t end_date step = S (n_instants (t + step) end_date step).
Proof.
  intros Hs Ht. unfold n_instants.
  replace (end_date - (t + step)) with ((end_date - t) + (-1) * step) by lia.
  rewrite Z.div_add by lia.
  assert (0 <= (end_date - t) / step) by (apply Z.div_pos; lia).
  lia.
Qed.

Example datetime_max_is_the_last_microsecond :
  DATETIME_MAX = mk_datetime 9999 12 31 23 59 + 59 * US_PER_SECOND + 999999.
Proof. reflexivity. Qed.

Example new_year_2024_is_day_738886 : ymd2ord 2024 1 1 = 738886.
Proof. reflexivity. Qed.

Lemma US_PER_MINUTE_pos : 0 < US_PER_MINUTE.
Proof. reflexivity. Qed.

Lemma step_pos interval : 0 < interval -> 0 < interval * US_PER_MINUTE.
Proof. intros. apply Z.mul_pos_pos; [done | apply US_PER_MINUTE_pos]. Qed.

Lemma make_timedelta_inv us w d w' :
  make_timedelta us w = (Returned d, w') -> d = us /\ w' = w.
Proof.
  unfold make_timedelta.
  destruct (_ && _); cbn; intros H; inversion H; auto.
Qed.

Lemma make_timedelta_run us w :
  0 <= us <= DATETIME_MAX -> make_timedelta us w = (Returned us, w).
Proof.
  intros [H0 H1]. unfold make_timedelta.
  assert (0 <= us / US_PER_DAY) by (apply Z.div_pos; [lia | reflexivity]).
  assert (us / US_PER_DAY <= DATETIME_MAX / US_PER_DAY)
    by (apply Z.div_le_mono; [reflexivity | lia]).
  assert (DATETIME_MAX / US_PER_DAY <= TIMEDELTA_MAX_DAYS) by (vm_compute; discriminate).
  assert (- TIMEDELTA_MAX_DAYS <= 0) by (vm_compute; discriminate).
  replace (_ && _) with true; [reflexivity|].
  symmetry. apply andb_true_intro. split; apply Z.leb_le; lia.
Qed.

Lemma datetime_add_inv t d w t' w' :
  datetime_add t d w = (Returned t', w') -> t' = t + d /\ w' = w.
Proof.
  unfold datetime_add. destruct (datetime_valid _); cbn; intros H; inversion H; auto.
Qed.

Lemma datetime_add_run t d w :
  0 <= t + d <= DATETIME_MAX -> datetime_add t d w = (Returned (t + d), w).
Proof.
  intros [H0 H1]. unfold datetime_add, datetime_valid.
  replace (_ && _) with true; [reflexivity|].
  symmetry. apply andb_true_intro. split; apply Z.leb_le; lia.
Qed.

Lemma datetime_add_overflow t d w :
  DATETIME_MAX < t + d ->
  datetime_add t d w = (Raised (OverflowError "date value out of range"), w).
Proof.
  intros H. unfold datetime_add, datetime_valid.
  replace (t + d <=? DATETIME_MAX) with false; [now rewrite andb_false_r|].
  symmetry. apply Z.leb_gt. lia.
Qed.

(** Whatever the outer loop returns is the list it started from followed by
    some number of rounds; with a positive interval the number of rounds is
    the number of sample instants. *)
Lemma while_loop_returned fuel : forall t end_date bv ids interval data w out w',
  (forall sid, sid ∈ ids -> is_Some (bv !! sid)) ->
  while_loop fuel t end_date bv ids interval data w = (Returned out, w') ->
  exists m,
    out = data ++ series m t (interval * US_PER_MINUTE) bv (rand_tape w) (rand_pos w) ids
    /\ w' = skip_draws (m * (3 * length ids)) w
    /\ (t <= end_date -> (1 <= m)%nat)
    /\ (0 < interval -> m = n_instants t end_date (interval * US_PER_MINUTE)).
Proof.
  induction fuel as [|fuel IH]; intros t end_date bv ids interval data w out w' Hin H.
  - discriminate.
  - cbn [while_loop] in H. destruct (Z.leb_spec t end_date) as [Hle|Hgt].
    + rewrite (bind_returned _ _ _ _ _ (for_sensors_run t bv ids data w Hin)) in H.
      apply bind_inv_returned in H as (step & w1 & Hstep & H).
      apply make_timedelta_inv in Hstep as [-> ->].
      apply bind_inv_returned in H as (t' & w2 & Ht' & H).
      apply datetime_add_inv in Ht' as [-> ->].
      apply IH in H as (m & -> & -> & _ & Hm); [|done].
      exists (S m). cbn [series rand_tape rand_pos skip_draws].
      rewrite skip_draws_skip_draws, <- app_assoc.
      repeat split; try lia.
      * f_equal. lia.
      * intros Hi. rewrite (n_instants_step t) by (auto using step_pos).
        f_equal. auto.
    + inversion H; subst. exists 0%nat. cbn [series].
      rewrite app_nil_r, skip_draws_0. repeat split; try lia.
      intros Hi. symmetry. apply n_instants_past; auto using step_pos.
Qed.

(** With a positive interval the loop returns as soon as the budget covers
    the rounds and the calendar covers the instant after the last one. *)
Lemma while_loop_total fuel :
  forall (t end_date : datetime) bv ids (interval : Z) data w,
  (forall sid, sid ∈ ids -> is_Some (bv !! sid)) ->
  0 < interval -> 0 <= t ->
  t + Z.of_nat (n_instants t end_date (interval * US_PER_MINUTE))
      * (interval * US_PER_MINUTE) <= DATETIME_MAX ->
  (n_instants t end_date (interval * US_PER_MINUTE)%Z < fuel)%nat ->
  exists out w',
    while_loop fuel t end_date bv ids interval data w = (Returned out, w').
Proof.
  induction fuel as [|fuel IH]; intros t end_date bv ids interval data w Hin Hi Ht Hfit Hfuel.
  - lia.
  - pose proof (step_pos _ Hi) as Hs.
    cbn [while_loop]. destruct (Z.leb_spec t end_date) as [Hle|Hgt]; [|eauto].
    rewrite (bind_returned _ _ _ _ _ (for_sensors_run t bv ids data w Hin)).
    rewrite (n_instants_step t) in Hfit, Hfuel by done.
    set (step := interval * US_PER_MINUTE) in *.
    set (n := n_instants (t + step) end_date step) in *.
    assert (0 <= Z.of_nat n * step) by nia.
    unfold timedelta_minutes. fold step.
    rewrite (bind_returned _ _ _ _ _ (make_timedelta_run step _ ltac:(nia))).
    rewrite (bind_returned _ _ _ _ _ (datetime_add_run t step _ ltac:(nia))).
    apply IH; try done; fold step; fold n; [lia | nia | lia].
Qed.

(** ** The shape of the emitted series *)

Lemma instants_length m : forall t step, length (instants m t step) = m.
Proof. induction m as [|m IH]; intros; cbn; [done|]. now rewrite IH. Qed.

Lemma instants_lookup m : forall t step j,
  (j < m)%nat -> instants m t step !! j = Some (t + Z.of_nat j * step).
Proof.
  induction m as [|m IH]; intros t step j Hj; [lia|].
  destruct j as [|j]; cbn [instants].
  - cbn. f_equal. lia.
  - cbn [lookup list_lookup]. rewrite IH by lia. f_equal. lia.
Qed.

(** The sample instants are exactly the instants [start + j * step] that do
    not pass [end_date]. *)
Lemma sample_instants_spec start_date end_date step t :
  0 < step -> start_date <= end_date ->
  t ∈ sample_instants start_date end_date step <->
  exists j : Z, 0 <= j /\ t = start_date + j * step /\ t <= end_date.
Proof.
  intros Hs Hle. unfold sample_instants, n_instants.
  set (q := (end_date - start_date) / step).
  assert (Hq : 0 <= q) by (apply Z.div_pos; lia).
  assert (Hq1 : q * step <= end_date - start_date)
    by (rewrite Z.mul_comm; apply Z.mul_div_le; lia).
  assert (Hq2 : end_date - start_date < (q + 1) * step).
  { pose proof (Z.mod_pos_bound (end_date - start_date) step Hs).
    pose proof (Z.div_mod (end_date - start_date) step ltac:(lia)). fold q in H0. nia. }
  rewrite list_elem_of_lookup. split.
  - intros [j Hj].
    assert (Hlt : (j < Z.to_nat (q + 1))%nat).
    { apply lookup_lt_Some in Hj. now rewrite instants_length in Hj. }
    rewrite instants_lookup in Hj by done. inversion Hj; subst.
    exists (Z.of_nat j). repeat split; [lia|]. nia.
  - intros (j & Hj0 & -> & Hj).
    exists (Z.to_nat j). rewrite instants_lookup; [f_equal; lia|]. nia.
Qed.

Lemma block_keys t bv tape ids : forall p,
  map key (block t bv tape p ids) = map (pair t) ids.
Proof. induction ids as [|x r IH]; intros p; cbn; [done|]. now rewrite IH. Qed.

Lemma series_keys m : forall t step bv tape p ids,
  map key (series m t step bv tape p ids)
  = flat_map (fun t' => map (pair t') ids) (instants m t step).
Proof.
  induction m as [|m IH]; intros; cbn [series instants flat_map]; [done|].
  now rewrite map_app, block_keys, IH.
Qed.

Lemma block_timestamps t bv tape ids : forall p,
  Forall (fun x => x = t) (map timestamp (block t bv tape p ids)).
Proof. induction ids as [|x r IH]; intros p; cbn; constructor; auto. Qed.

Lemma series_timestamps_ge m : forall t step bv tape p ids,
  0 <= step -> Forall (fun x => t <= x) (map timestamp (series m t step bv tape p ids)).
Proof.
  induction m as [|m IH]; intros t step bv tape p ids Hs; cbn [series]; [constructor|].
  rewrite map_app. apply Forall_app. split.
  - eapply Forall_impl; [apply block_timestamps|]. cbn. intros; lia.
  - eapply Forall_impl; [apply IH; done|]. cbn. intros; lia.
Qed.

Lemma constant_sorted (t : Z) (l : list Z) :
  Forall (fun x => x = t) l -> StronglySorted Z.le l.
Proof.
  induction 1 as [|x l Hx Hl IH]; constructor; [done|].
  subst x. eapply Forall_impl; [exact Hl|]. cbn. intros; lia.
Qed.

Lemma series_timestamps_sorted m : forall t step bv tape p ids,
  0 <= step -> StronglySorted Z.le (map timestamp (series m t step bv tape p ids)).
Proof.
  induction m as [|m IH]; intros t step bv tape p ids Hs; cbn [series]; [constructor|].
  rewrite map_app. apply StronglySorted_app_2.
  - intros x1 x2 H1 H2.
    pose proof (block_timestamps t bv tape ids p) as Hb.
    pose proof (series_timestamps_ge m (t + step) step bv tape (3 * length ids + p) ids Hs) as Hr.
    rewrite Forall_forall in Hb, Hr.
    apply Hb in H1. apply Hr in H2. lia.
  - apply (constant_sorted t), block_timestamps.
  - now apply IH.
Qed.

Lemma block_lookup t bv tape ids : forall p i r,
  block t bv tape p ids !! i = Some r ->
  exists sid, ids !! i = Some sid /\ r = point_at t (bv !!! sid) sid tape (3 * i + p).
Proof.
  induction ids as [|x rest IH]; intros p i r H; [done|].
  destruct i as [|i]; cbn in H.
  - inversion H. exists x. split; [done|]. f_equal.
  - apply IH in H as (sid & Hs & ->). exists sid. split; [done|]. f_equal. lia.
Qed.

(** Reading number [k] of a series is the one of sensor [k mod n] at instant
    [k / n], drawn at position [3 * k] past the start of the series. *)
Lemma series_lookup m : forall t step bv tape p ids k r,
  series m t step bv tape p ids !! k = Some r ->
  exists sid,
    ids !! (k mod length ids)%nat = Some sid
    /\ r = point_at (t + Z.of_nat (k / length ids) * step) (bv !!! sid) sid tape (3 * k + p).
Proof.
  induction m as [|m IH]; intros t step bv tape p ids k r H; [done|].
  cbn [series] in H. set (n := length ids) in *.
  assert (Hn : n <> 0%nat).
  { intros Hn. assert (k < length (series (S m) t step bv tape p ids))%nat as Hk.
    { change (series (S m) t step bv tape p ids)
        with (block t bv tape p ids ++ series m (t + step) step bv tape (3 * n + p) ids).
      eapply lookup_lt_Some; eauto. }
    rewrite series_length in Hk. fold n in Hk. rewrite Hn in Hk. lia. }
  apply lookup_app_Some in H as [H|[Hge H]].
  - pose proof (lookup_lt_Some _ _ _ H) as Hk. rewrite block_length in Hk. fold n in Hk.
    apply block_lookup in H as (sid & Hs & ->).
    rewrite Nat.mod_small, Nat.div_small by done.
    exists sid. split; [done|]. f_equal. lia.
  - rewrite block_length in Hge, H. fold n in Hge, H.
    apply IH in H as (sid & Hs & ->). fold n in Hs.
    assert (Hk : k = (k - n + 1 * n)%nat) by lia.
    assert (Hdiv : (k / n = (k - n) / n + 1)%nat)
      by (rewrite Hk at 1; now rewrite Nat.div_add).
    assert (Hmod : (k mod n = (k - n) mod n)%nat)
      by (rewrite Hk at 1; now rewrite Nat.Div0.mod_add).
    exists sid. rewrite Hmod, Hdiv. split; [done|].
    fold n. f_equal; [rewrite Nat2Z.inj_add; lia | lia].
Qed.

(** ** The generator as a whole *)

Lemma effective_sensor_ids_nonempty ids : effective_sensor_ids ids <> [].
Proof. destruct ids as [[|x l]|]; cbn; discriminate. Qed.

Lemma generate_unfold fuel start_date end_date ids interval w :
  generate_simulated_data fuel start_date end_date ids interval w
  = while_loop fuel start_date end_date
      (base_values_of (effective_sensor_ids ids) ∅ (rand_tape w) (rand_pos w))
      (effective_sensor_ids ids) interval []
      (skip_draws (2 * length (effective_sensor_ids ids)) w).
Proof.
  unfold generate_simulated_data.
  now rewrite (bind_returned _ _ _ _ _ (draw_base_values_run _ _ w)).
Qed.

Lemma generate_returned fuel start_date end_date ids interval w out w' :
  generate_simulated_data fuel start_date end_date ids interval w = (Returned out, w') ->
  let ids' := effective_sensor_ids ids in
  exists m,
    out = series m start_date (interval * US_PER_MINUTE)
            (base_values_of ids' ∅ (rand_tape w) (rand_pos w))
            (rand_tape w) (2 * length ids' + rand_pos w) ids'
    /\ (start_date <= end_date -> (1 <= m)%nat)
    /\ (0 < interval ->
        m = n_instants start_date end_date (interval * US_PER_MINUTE)).
Proof.
  rewrite generate_unfold. intros H ids'.
  apply while_loop_returned in H as (m & -> & _ & H1 & H2).
  - exists m. cbn [app]. auto.
  - intros sid Hs. now apply base_values_of_covers.
Qed.

Lemma generate_total fuel (start_date end_date : datetime) ids (interval : Z) w :
  0 < interval ->
  stays_in_calendar start_date end_date (interval * US_PER_MINUTE) ->
  (n_instants start_date end_date (interval * US_PER_MINUTE)%Z < fuel)%nat ->
  exists out w',
    generate_simulated_data fuel start_date end_date ids interval w = (Returned out, w').
Proof.
  intros Hi [H0 H1] Hfuel. rewrite generate_unfold.
  apply while_loop_total; try done.
  intros sid Hs. now apply base_values_of_covers.
Qed.

(** ** C1: the number of readings of a single sensor *)

(** C1, as stated, fails: from 00:00 to 00:50 every 15 minutes the generator
    emits the four readings of 00:00, 00:15, 00:30 and 00:45, while
    [ceil(50 / 15) + 1] is 5. *)
Lemma generate_count_is_not_the_ceiling :
  exists out w',
    generate_simulated_data 10 (mk_datetime 2024 1 1 0 0) (mk_datetime 2024 1 1 0 50)
                            (Some ["s1"]) 15 world0 = (Returned out, w')
    /\ mk_datetime 2024 1 1 0 0 <= mk_datetime 2024 1 1 0 50
    /\ 0 < 15
    /\ length out = 4%nat
    /\ stated_count (mk_datetime 2024 1 1 0 0) (mk_datetime 2024 1 1 0 50) 15 = 5.
Proof.
  eexists. eexists. split; [vm_compute; reflexivity|].
  repeat split; vm_compute; congruence.
Qed.

(** C1, amended: for every [start <= end] and every [interval_minutes > 0],
    the readings that [generate(start, end, [e], interval_minutes)] returns
    are those of [e] at the sample instants [start, start + interval, ...]
    up to [end], so their number is [floor((end - start) / interval) + 1];
    the call returns whenever the calendar covers the instants it computes.
    In particular the call from 2024-01-01T00:00 to 01:00 every 15 minutes
    for ["s1"] yields exactly 5 readings, at minutes 0, 15, 30, 45 and 60. *)
Theorem generate_single_sensor_count :
  (forall fuel (start_date end_date : datetime) (e : string) (interval : Z) w,
     start_date <= end_date -> 0 < interval ->
     let step := interval * US_PER_MINUTE in
     (stays_in_calendar start_date end_date step ->
      (n_instants start_date end_date step < fuel)%nat ->
      exists out w',
        generate_simulated_data fuel start_date end_date (Some [e]) interval w
        = (Returned out, w'))
     /\ (forall out w',
           generate_simulated_data fuel start_date end_date (Some [e]) interval w
           = (Returned out, w') ->
           Z.of_nat (length out) = (end_date - start_date) / step + 1
           /\ map key out = map (fun t => (t, e)) (sample_instants start_date end_date step)))
  /\ (forall fuel w, (5 < fuel)%nat ->
        exists out w',
          generate_simulated_data fuel (mk_datetime 2024 1 1 0 0) (mk_datetime 2024 1 1 1 0)
                                  (Some ["s1"]) 15 w = (Returned out, w')
          /\ map key out = [(mk_datetime 2024 1 1 0 0, "s1");
                            (mk_datetime 2024 1 1 0 15, "s1");
                            (mk_datetime 2024 1 1 0 30, "s1");
                            (mk_datetime 2024 1 1 0 45, "s1");
                            (mk_datetime 2024 1 1 1 0, "s1")]).
Proof.
  assert (Hgen : forall fuel (start_date end_date : datetime) (e : string) (interval : Z) w,
     start_date <= end_date -> 0 < interval ->
     forall out w',
           generate_simulated_data fuel start_date end_date (Some [e]) interval w
           = (Returned out, w') ->
           Z.of_nat (length out) = (end_date - start_date) / (interval * US_PER_MINUTE) + 1
           /\ map key out = map (fun t => (t, e))
                              (sample_instants start_date end_date (interval * US_PER_MINUTE))).
  { intros fuel start_date end_date e interval w Hle Hi out w' H.
    apply generate_returned in H as (m & -> & _ & Hm). specialize (Hm Hi). subst m.
    cbn [effective_sensor_ids]. split.
    - rewrite series_length. cbn [length]. unfold n_instants.
      assert (0 <= (end_date - start_date) / (interval * US_PER_MINUTE))
        by (apply Z.div_pos; [lia | now apply step_pos]).
      lia.
    - rewrite series_keys. unfold sample_instants.
      generalize (instants (n_instants start_date end_date (interval * US_PER_MINUTE))
                           start_date (interval * US_PER_MINUTE)).
      intros l. induction l as [|t l IH]; [done|].
      cbn [flat_map map app]. now f_equal. }
  split.
  - intros fuel start_date end_date e interval w Hle Hi step. split.
    + intros Hcal Hfuel. now apply generate_total.
    + now apply Hgen.
  - intros fuel w Hfuel.
    destruct (generate_total fuel (mk_datetime 2024 1 1 0 0) (mk_datetime 2024 1 1 1 0)
                (Some ["s1"]) 15 w) as (out & w' & H).
    + lia.
    + split; vm_compute; congruence.
    + exact Hfuel.
    + exists out, w'. split; [exact H|].
      apply Hgen in H as [_ ->]; [reflexivity | vm_compute; congruence | lia].
Qed.

(** The scenario of C1 on a concrete world. *)
Lemma generate_single_sensor_count_witness :
  mk_datetime 2024 1 1 0 0 <= mk_datetime 2024 1 1 1 0 /\ 0 < 15
  /\ exists out w',
       generate_simulated_data 6 (mk_datetime 2024 1 1 0 0) (mk_datetime 2024 1 1 1 0)
                               (Some ["s1"]) 15 world0 = (Returned out, w')
       /\ Z.of_nat (length out) = 5.
Proof.
  assert (H1 : mk_datetime 2024 1 1 0 0 <= mk_datetime 2024 1 1 1 0)
    by (vm_compute; congruence).
  assert (H2 : 0 < 15) by lia.
  split; [exact H1|]. split; [exact H2|].
  destruct (proj1 generate_single_sensor_count 6%nat _ _ "s1" 15 world0 H1 H2)
    as [Htotal Hcount].
  destruct Htotal as (out & w' & H).
  - split; vm_compute; congruence.
  - vm_compute. lia.
  - exists out, w'. split; [exact H|].
    destruct (Hcount out w' H) as [-> _]. reflexivity.
Defined.

(** ** C8: length, order and interleaving of the series *)

(** C8: for every call with [start <= end], [interval_minutes > 0] and a
    non-empty list of entities, the output has (number of entities) times
    (number of sample instants) readings, its timestamps never decrease,
    and it lists, for each sample instant in turn, one reading per entity in
    the order of the list.  The call returns whenever the calendar covers
    the instants it computes. *)
Theorem generate_length_order_interleaving :
  forall fuel (start_date end_date : datetime) (ids : list string) (interval : Z) w,
    start_date <= end_date -> 0 < interval -> ids <> [] ->
    let step := interval * US_PER_MINUTE in
    (stays_in_calendar start_date end_date step ->
     (n_instants start_date end_date step < fuel)%nat ->
     exists out w',
       generate_simulated_data fuel start_date end_date (Some ids) interval w
       = (Returned out, w'))
    /\ (forall out w',
          generate_simulated_data fuel start_date end_date (Some ids) interval w
          = (Returned out, w') ->
          length out
          = (length ids * length (sample_instants start_date end_date step))%nat
          /\ Sorted Z.le (map timestamp out)
          /\ map key out
             = flat_map (fun t => map (pair t) ids)
                        (sample_instants start_date end_date step)).
Proof.
  intros fuel start_date end_date ids interval w Hle Hi Hids step. split.
  - intros Hcal Hfuel. now apply generate_total.
  - intros out w' H.
    apply generate_returned in H as (m & -> & _ & Hm). specialize (Hm Hi). subst m.
    assert (He : effective_sensor_ids (Some ids) = ids) by (destruct ids; done).
    rewrite He. fold step. unfold sample_instants. rewrite instants_length.
    repeat split.
    + rewrite series_length. lia.
    + apply StronglySorted_Sorted, series_timestamps_sorted.
      pose proof (step_pos _ Hi). subst step. lia.
    + apply series_keys.
Qed.

(** Two sensors from 23:30 to 00:10 every 20 minutes: three instants, six
    readings. *)
Lemma generate_length_order_interleaving_witness :
  mk_datetime 2024 1 1 23 30 <= mk_datetime 2024 1 2 0 10 /\ 0 < 20
  /\ ["a"; "b"] <> []
  /\ exists out w',
       generate_simulated_data 4 (mk_datetime 2024 1 1 23 30) (mk_datetime 2024 1 2 0 10)
                               (Some ["a"; "b"]) 20 world0 = (Returned out, w')
       /\ length out = 6%nat
       /\ map key out = [(mk_datetime 2024 1 1 23 30, "a"); (mk_datetime 2024 1 1 23 30, "b");
                         (mk_datetime 2024 1 1 23 50, "a"); (mk_datetime 2024 1 1 23 50, "b");
                         (mk_datetime 2024 1 2 0 10, "a"); (mk_datetime 2024 1 2 0 10, "b")].
Proof.
  assert (H1 : mk_datetime 2024 1 1 23 30 <= mk_datetime 2024 1 2 0 10)
    by (vm_compute; congruence).
  assert (H2 : 0 < 20) by lia.
  assert (H3 : ["a"; "b"] <> []) by discriminate.
  split; [exact H1|]. split; [exact H2|]. split; [exact H3|].
  destruct (generate_length_order_interleaving 4%nat _ _ ["a"; "b"] 20 world0 H1 H2 H3)
    as [Htotal Hshape].
  destruct Htotal as (out & w' & H).
  - split; vm_compute; congruence.
  - vm_compute. lia.
  - exists out, w'. split; [exact H|].
    destruct (Hshape out w' H) as (-> & _ & ->). split; reflexivity.
Defined.

(** ** C10: an empty list of entities *)

(** C10: passing the empty list behaves exactly as omitting the argument,
    which in turn is the call for the three built-in sensors; so for every
    [start <= end] the result of the call with the empty list is non-empty,
    and the call returns whenever the interval is positive and the calendar
    covers the instants it computes. *)
Theorem generate_empty_list_is_default :
  (forall fuel start_date end_date interval w,
     generate_simulated_data fuel start_date end_date (Some []) interval w
     = generate_simulated_data fuel start_date end_date None interval w
     /\ generate_simulated_data fuel start_date end_date None interval w
        = generate_simulated_data fuel start_date end_date
            (Some ["sensor-001"; "sensor-002"; "sensor-003"]) interval w)
  /\ (forall fuel (start_date end_date : datetime) interval w out w',
        start_date <= end_date ->
        generate_simulated_data fuel start_date end_date (Some []) interval w
        = (Returned out, w') ->
        out <> [])
  /\ (forall fuel (start_date end_date : datetime) (interval : Z) w,
        start_date <= end_date -> 0 < interval ->
        stays_in_calendar start_date end_date (interval * US_PER_MINUTE) ->
        (n_instants start_date end_date (interval * US_PER_MINUTE)%Z < fuel)%nat ->
        exists out w',
          generate_simulated_data fuel start_date end_date (Some []) interval w
          = (Returned out, w')).
Proof.
  split; [|split].
  - intros. split; reflexivity.
  - intros fuel start_date end_date interval w out w' Hle H.
    apply generate_returned in H as (m & -> & Hm & _). specialize (Hm Hle).
    intros Hnil. apply (f_equal length) in Hnil.
    rewrite series_length in Hnil. cbn in Hnil. lia.
  - intros fuel start_date end_date interval w Hle Hi Hcal Hfuel.
    now apply generate_total.
Qed.

(** The empty list on a concrete world: one instant, the three built-in
    sensors. *)
Lemma generate_empty_list_is_default_witness :
  mk_datetime 2024 1 1 0 0 <= mk_datetime 2024 1 1 0 10
  /\ exists out w',
       generate_simulated_data 2 (mk_datetime 2024 1 1 0 0) (mk_datetime 2024 1 1 0 10)
                               (Some []) 15 world0 = (Returned out, w')
       /\ out <> []
       /\ map id out = ["sensor-001"; "sensor-002"; "sensor-003"].
Proof.
  assert (H1 : mk_datetime 2024 1 1 0 0 <= mk_datetime 2024 1 1 0 10)
    by (vm_compute; congruence).
  split; [exact H1|].
  eexists. eexists. split; [vm_compute; reflexivity|]. split; [|reflexivity].
  eapply (proj1 (proj2 generate_empty_list_is_default) 2%nat _ _ 15 world0 _ _ H1).
  vm_compute. reflexivity.
Defined.

(** ** C6: the evening drop of the voltage *)

(** C6: in the output of any call, reading number [k] has the voltage
    [(voltage_base + u) * 0.98] when the hour of its timestamp lies in
    [18, 22] and [voltage_base + u] otherwise, where [voltage_base] is the
    baseline that the call drew for the reading's sensor and [u] is the draw
    [random.uniform(-5, 5)] made for that reading, the first of the three
    draws of the reading. *)
Theorem voltage_evening_drop :
  forall fuel start_date end_date ids interval w bv w1 out w' (k : nat) r,
    draw_base_values (effective_sensor_ids ids) ∅ w = (Returned bv, w1) ->
    generate_simulated_data fuel start_date end_date ids interval w = (Returned out, w') ->
    out !! k = Some r ->
    exists b u,
      bv !! id r = Some b
      /\ fst (uniform (-5) 5 (skip_draws (3 * k) w1)) = Returned u
      /\ voltage r
         = if (18 <=? hour (timestamp r)) && (hour (timestamp r) <=? 22)
           then ((voltage_base b + u) * 0.98)%float
           else (voltage_base b + u)%float.
Proof.
  intros fuel start_date end_date ids interval w bv w1 out w' k r Hbv Hgen Hk.
  rewrite draw_base_values_run in Hbv. inversion Hbv; subst bv w1; clear Hbv.
  apply generate_returned in Hgen as (m & -> & _).
  apply series_lookup in Hk as (sid & Hsid & ->).
  set (ids' := effective_sensor_ids ids) in *.
  destruct (base_values_of_covers ids' ∅ (rand_tape w) (rand_pos w) sid) as [b Hb].
  { eapply list_elem_of_lookup_2; eauto. }
  exists b, (uniform_at (-5) 5 (rand_tape w) (3 * k + (2 * length ids' + rand_pos w))).
  rewrite (lookup_total_correct _ _ _ Hb). cbn [id point_at timestamp voltage].
  split; [exact Hb|]. split; [reflexivity|]. reflexivity.
Qed.

(** One sensor from 17:50 to 18:10 every 10 minutes: the reading of 18:00
    carries the factor, the reading of 17:50 does not. *)
Lemma voltage_evening_drop_witness :
  exists bv w1 out w' r0 r1,
    draw_base_values ["s1"] ∅ world0 = (Returned bv, w1)
    /\ generate_simulated_data 4 (mk_datetime 2024 1 1 17 50) (mk_datetime 2024 1 1 18 10)
                               (Some ["s1"]) 10 world0 = (Returned out, w')
    /\ out !! 0%nat = Some r0 /\ out !! 1%nat = Some r1
    /\ hour (timestamp r0) = 17 /\ hour (timestamp r1) = 18
    /\ (exists b u, bv !! "s1" = Some b
                    /\ fst (uniform (-5) 5 (skip_draws 0 w1)) = Returned u
                    /\ voltage r0 = (voltage_base b + u)%float)
    /\ (exists b u, bv !! "s1" = Some b
                    /\ fst (uniform (-5) 5 (skip_draws 3 w1)) = Returned u
                    /\ voltage r1 = ((voltage_base b + u) * 0.98)%float).
Proof.
  pose proof (draw_base_values_run ["s1"] ∅ world0) as Hbv.
  evar (out0 : list data_point). evar (w0 : World).
  assert (Hgen : generate_simulated_data 4 (mk_datetime 2024 1 1 17 50)
                   (mk_datetime 2024 1 1 18 10) (Some ["s1"]) 10 world0
                 = (Returned out0, w0))
    by (subst out0 w0; vm_compute; reflexivity).
  eexists. eexists. exists out0, w0. eexists. eexists.
  split; [exact Hbv|]. split; [exact Hgen|].
  split; [reflexivity|]. split; [reflexivity|].
  split; [reflexivity|]. split; [reflexivity|].
  split.
  - exact (voltage_evening_drop 4 _ _ (Some ["s1"]) 10 world0 _ _ _ _ 0%nat _
             Hbv Hgen eq_refl).
  - exact (voltage_evening_drop 4 _ _ (Some ["s1"]) 10 world0 _ _ _ _ 1%nat _
             Hbv Hgen eq_refl).
Defined.

(** ** Sorting by timestamp *)

Lemma sort_values_timestamp_perm pd df :
  Permutation (rows (sort_values_timestamp pd df)) (rows df).
Proof. apply sort_values_perm. Qed.

Lemma sort_values_timestamp_sorted pd df :
  StronglySorted timestamp_le (rows (sort_values_timestamp pd df)).
Proof. apply sort_values_sorted. Qed.

Lemma sort_values_timestamp_len pd df :
  df_len (sort_values_timestamp pd df) = df_len df.
Proof. unfold df_len. apply Permutation_length, sort_values_timestamp_perm. Qed.

(** ** C9: playback on an empty batch *)

(** C9 as stated fails on its own scenario.  With the cursor at 0, an empty
    batch and a step of 3, the call leaves the cursor at 0 but returns
    [None], the value of a bare [return]: it is not a slice, whatever the
    slice.  A slice without rows is another value, which the function does
    return at a step of 0 on a batch that has rows. *)
Lemma simulate_empty_batch_returns_no_slice :
  simulate_real_time_data pandas_returning empty_frame 3
    (mkSession (Some empty_frame) None (Some 0%nat) None)
  = (None, mkSession (Some empty_frame) None (Some 0%nat) None)
  /\ (forall slice,
        fst (simulate_real_time_data pandas_returning empty_frame 3
               (mkSession (Some empty_frame) None (Some 0%nat) None))
        <> Some slice)
  /\ fst (simulate_real_time_data pandas_returning (numbered_frame 0 3) 0
            (mkSession (Some (numbered_frame 0 3)) None (Some 0%nat) None))
     = Some (mkFrame ["id"; "timestamp"; "voltage"; "current"; "status"; "power"] []).
Proof.
  split; [reflexivity|]. split; [intros slice; discriminate|].
  vm_compute. reflexivity.
Qed.

(** C9, amended: for every cursor and every step, playback on an empty
    batch returns [None], no slice at all, and leaves the session, hence
    the cursor, exactly as it was, whatever the library. *)
Theorem simulate_empty_batch_returns_None :
  forall (pd : Pandas) (df : DataFrame) (simulation_speed : nat) (ss : SessionState),
    df_empty df = true ->
    simulate_real_time_data pd df simulation_speed ss = (None, ss).
Proof.
  intros pd df speed ss He. unfold simulate_real_time_data. now rewrite He.
Qed.

(** The scenario of C9: cursor 0, empty batch, step 3. *)
Lemma simulate_empty_batch_returns_None_witness :
  df_empty empty_frame = true
  /\ simulate_real_time_data pandas_returning empty_frame 3
       (mkSession (Some empty_frame) None (Some 0%nat) None)
     = (None, mkSession (Some empty_frame) None (Some 0%nat) None).
Proof.
  split; [reflexivity|].
  exact (simulate_empty_batch_returns_None pandas_returning empty_frame 3
           (mkSession (Some empty_frame) None (Some 0%nat) None) eq_refl).
Defined.

(** ** C3: playback on a non-empty batch *)

(** C3: on a non-empty batch, for every cursor and every step of at least 1,
    playback takes 0 for the cursor when the cursor is not below the length
    of the batch, returns the rows of the timestamp-sorted batch at
    positions cursor, cursor + 1, ... , at most step of them and none past
    the end, and stores [(cursor + step) mod len(batch)] as the new cursor,
    computed from the cursor it used.  The sorted batch is the one the
    library's sort returns: the rows of the batch in non-decreasing
    timestamp order, rows with equal timestamps in the order the library
    chooses. *)
Theorem simulate_advances_cursor :
  forall (pd : Pandas) (df : DataFrame) (simulation_speed cursor : nat)
         (ss : SessionState),
    df_empty df = false -> has_column "timestamp" df = true ->
    simulation_index ss = Some cursor ->
    (1 <= simulation_speed)%nat ->
    let sorted := sort_values_timestamp pd df in
    let c := if (df_len df <=? cursor)%nat then 0%nat else cursor in
    exists slice,
      simulate_real_time_data pd df simulation_speed ss
      = (Some slice, set_simulation_index ss ((c + simulation_speed) mod df_len df))
      /\ StronglySorted timestamp_le (rows sorted)
      /\ Permutation (rows sorted) (rows df)
      /\ columns slice = columns df
      /\ df_len slice = Nat.min simulation_speed (df_len df - c)
      /\ forall i, (i < df_len slice)%nat -> rows slice !! i = rows sorted !! (c + i)%nat.
Proof.
  intros pd df speed cursor ss He Hc Hidx Hs sorted c.
  unfold simulate_real_time_data. rewrite He, Hc, Hidx. cbn [orb negb].
  cbv beta iota zeta. rewrite Hidx. cbn [default].
  rewrite sort_values_timestamp_len. fold c. fold sorted.
  exists (iloc sorted c (c + speed)). split; [reflexivity|].
  split; [apply sort_values_timestamp_sorted|].
  split; [apply sort_values_timestamp_perm|].
  split; [reflexivity|].
  assert (Hlen : df_len (iloc sorted c (c + speed)) = Nat.min speed (df_len df - c)).
  { unfold df_len, iloc. cbn [rows]. rewrite length_take, length_drop.
    fold (df_len sorted). unfold sorted. rewrite sort_values_timestamp_len.
    unfold df_len. f_equal. lia. }
  split; [exact Hlen|].
  intros i Hi. rewrite Hlen in Hi. unfold iloc. cbn [rows].
  rewrite lookup_take_lt by lia. apply lookup_drop.
Qed.

(** The scenario of C3: cursor 98 in a batch of 100 rows, step 5: rows 98
    and 99 are returned and the new cursor is 3. *)
Lemma simulate_advances_cursor_witness :
  df_empty (numbered_frame 0 100) = false
  /\ has_column "timestamp" (numbered_frame 0 100) = true
  /\ (1 <= 5)%nat
  /\ exists slice ss',
       simulate_real_time_data pandas_returning (numbered_frame 0 100) 5
         (mkSession (Some (numbered_frame 0 100)) None (Some 98%nat) None)
       = (Some slice, ss')
       /\ rows slice = numbered_rows 98 2
       /\ simulation_index ss' = Some 3%nat.
Proof.
  assert (H1 : df_empty (numbered_frame 0 100) = false) by reflexivity.
  assert (H2 : has_column "timestamp" (numbered_frame 0 100) = true) by reflexivity.
  assert (H3 : (1 <= 5)%nat) by lia.
  split; [exact H1|]. split; [exact H2|]. split; [exact H3|].
  destruct (simulate_advances_cursor pandas_returning (numbered_frame 0 100) 5 98
              (mkSession (Some (numbered_frame 0 100)) None (Some 98%nat) None)
              H1 H2 eq_refl H3) as (slice & Hrun & _ & _ & _ & Hlen & Hrows).
  exists slice. eexists. split; [exact Hrun|]. split; [|vm_compute; reflexivity].
  unfold df_len in Hlen, Hrows.
  assert (Hlen2 : length (rows slice) = 2%nat)
    by (rewrite Hlen; vm_compute; reflexivity).
  rewrite Hlen2 in Hrows.
  assert (Hr0 := Hrows 0%nat ltac:(lia)). assert (Hr1 := Hrows 1%nat ltac:(lia)).
  destruct (rows slice) as [|a [|b [|x l]]]; try discriminate Hlen2.
  assert (Ha : Some a = numbered_rows 98 2 !! 0%nat)
    by (change (Some a) with ([a; b] !! 0%nat); rewrite Hr0; vm_compute; reflexivity).
  assert (Hb : Some b = numbered_rows 98 2 !! 1%nat)
    by (change (Some b) with ([a; b] !! 1%nat); rewrite Hr1; vm_compute; reflexivity).
  inversion Ha. inversion Hb. reflexivity.
Defined.

(** ** C2: the rolling buffer *)

Lemma last_rows_length {A} n (l : list A) : length (last_rows n l) = Nat.min n (length l).
Proof. unfold last_rows. rewrite length_drop. lia. Qed.

Lemma last_rows_app {A} n (a b : list A) :
  last_rows n (last_rows n a ++ b) = last_rows n (a ++ b).
Proof.
  unfold last_rows.
  rewrite !drop_app, !drop_drop, !length_app, !length_drop.
  f_equal; f_equal; lia.
Qed.

Lemma last_rows_all {A} n (l : list A) : (length l <= n)%nat -> last_rows n l = l.
Proof. intros H. unfold last_rows. now replace (length l - n)%nat with 0%nat by lia. Qed.

(** One append onto an existing buffer keeps the last 100 rows of the
    concatenation. *)
Lemma update_existing_buffer new_data ss old :
  real_time_buffer ss = Some old ->
  exists buf,
    real_time_buffer (update_real_time_buffer new_data ss) = Some buf
    /\ rows buf = last_rows MAX_BUFFER_SIZE (rows old ++ rows new_data).
Proof.
  intros H. unfold update_real_time_buffer. rewrite H.
  destruct (Nat.ltb_spec MAX_BUFFER_SIZE (df_len (concat_frames old new_data))) as [Hlt|Hge];
    eexists; (split; [reflexivity|]); cbn [rows iloc_last concat_frames].
  - reflexivity.
  - symmetry. apply last_rows_all. exact Hge.
Qed.

(** Hence an append onto an existing buffer never leaves more than 100 rows. *)
Lemma update_existing_buffer_bounded new_data ss old :
  real_time_buffer ss = Some old ->
  exists buf,
    real_time_buffer (update_real_time_buffer new_data ss) = Some buf
    /\ (df_len buf <= MAX_BUFFER_SIZE)%nat.
Proof.
  intros H. destruct (update_existing_buffer new_data ss old H) as (buf & Hb & Hr).
  exists buf. split; [exact Hb|]. unfold df_len. rewrite Hr, last_rows_length. lia.
Qed.

Lemma append_all_existing slices : forall ss old,
  real_time_buffer ss = Some old ->
  exists buf,
    real_time_buffer (append_all slices ss) = Some buf
    /\ last_rows MAX_BUFFER_SIZE (rows buf)
       = last_rows MAX_BUFFER_SIZE (rows old ++ appended_rows slices)
    /\ (slices <> [] ->
        rows buf = last_rows MAX_BUFFER_SIZE (rows old ++ appended_rows slices)).
Proof.
  induction slices as [|d rest IH]; intros ss old H.
  - exists old. cbn. rewrite app_nil_r. repeat split; done.
  - destruct (update_existing_buffer d ss old H) as (b1 & Hb1 & Hrows1).
    destruct (IH _ _ Hb1) as (buf & Hbuf & Hlast & Hne).
    exists buf. cbn [append_all foldl]. fold (append_all rest (update_real_time_buffer d ss)).
    split; [exact Hbuf|].
    assert (Hall : last_rows MAX_BUFFER_SIZE (rows b1 ++ appended_rows rest)
                   = last_rows MAX_BUFFER_SIZE (rows old ++ appended_rows (d :: rest))).
    { rewrite Hrows1, last_rows_app. unfold appended_rows. cbn [map concat].
      now rewrite app_assoc. }
    split; [now rewrite Hlast|].
    intros _. destruct rest as [|d' rest'].
    + cbn in Hbuf. rewrite Hb1 in Hbuf. inversion Hbuf; subst buf.
      rewrite Hrows1. unfold appended_rows. cbn. now rewrite app_nil_r.
    + rewrite Hne by discriminate. exact Hall.
Qed.

(** C2: start with no buffer and make any sequence of appends, a first one
    and at least one more.  The buffer then never holds more than
    MAX_BUFFER_SIZE = 100 rows; when more than 100 rows were appended in
    all, it holds exactly 100, the 100 most recently appended in arrival
    order; when at most 100 were appended, it holds them all. *)
Theorem rolling_buffer_capacity :
  forall (ss : SessionState) (first : DataFrame) (rest : list DataFrame),
    real_time_buffer ss = None -> rest <> [] ->
    let appended := appended_rows (first :: rest) in
    exists buf,
      real_time_buffer (append_all (first :: rest) ss) = Some buf
      /\ (df_len buf <= MAX_BUFFER_SIZE)%nat
      /\ ((MAX_BUFFER_SIZE < length appended)%nat ->
          df_len buf = MAX_BUFFER_SIZE
          /\ rows buf = drop (length appended - MAX_BUFFER_SIZE) appended)
      /\ ((length appended <= MAX_BUFFER_SIZE)%nat -> rows buf = appended).
Proof.
  intros ss first rest Hnone Hrest appended.
  cbn [append_all foldl]. unfold update_real_time_buffer at 2. rewrite Hnone.
  destruct (append_all_existing rest (set_real_time_buffer ss (Some first)) first eq_refl)
    as (buf & Hbuf & _ & Hrows).
  specialize (Hrows Hrest).
  change (rows first ++ appended_rows rest) with appended in Hrows.
  exists buf. split; [exact Hbuf|].
  unfold df_len. rewrite Hrows, last_rows_length.
  split; [lia|]. split.
  - intros Hlt. split; [lia | reflexivity].
  - intros Hle. now apply last_rows_all.
Qed.

(** Slices of 60, 30 and 40 rows: 130 rows in all, the buffer ends with the
    rows numbered 30 to 129. *)
Lemma rolling_buffer_capacity_witness :
  real_time_buffer session0 = None
  /\ [numbered_frame 60 30; numbered_frame 90 40] <> []
  /\ exists buf,
       real_time_buffer
         (append_all [numbered_frame 0 60; numbered_frame 60 30; numbered_frame 90 40]
                     session0) = Some buf
       /\ df_len buf = 100%nat
       /\ rows buf = numbered_rows 30 100.
Proof.
  assert (H2 : [numbered_frame 60 30; numbered_frame 90 40] <> []) by discriminate.
  split; [reflexivity|]. split; [exact H2|].
  destruct (rolling_buffer_capacity session0 (numbered_frame 0 60)
              [numbered_frame 60 30; numbered_frame 90 40] eq_refl H2)
    as (buf & Hbuf & _ & Hfull & _).
  exists buf. split; [exact Hbuf|].
  destruct Hfull as [Hlen Hrows]; [vm_compute; lia|].
  split; [exact Hlen|]. rewrite Hrows. vm_compute. reflexivity.
Defined.

(** Settle a conjunction of closed equations by evaluation. *)
Ltac compute_all :=
  repeat match goal with |- _ /\ _ => split end; vm_compute; reflexivity.

(** ** C7: the derived power column *)

Lemma logged_app a b w : logged (a ++ b) w = logged b (logged a w).
Proof. apply foldl_app. Qed.

Lemma zip_with_own {A} (set : row -> A -> row) (cell : row -> A) (l : list row) :
  (forall r, set r (cell r) = r) -> zip_with set l (map cell l) = l.
Proof. intros Hown. induction l as [|r l IH]; cbn; [done|]. now rewrite Hown, IH. Qed.

(** Assigning to a column the cells it holds changes nothing. *)
Lemma assign_column_own {A} name (set : row -> A -> row) (cell : row -> A) df :
  has_column name df = true -> (forall r, set r (cell r) = r) ->
  assign_column name set (column cell df) df = df.
Proof.
  intros Hcol Hown. unfold assign_column, column. rewrite Hcol, zip_with_own by done.
  now destruct df.
Qed.

(** A guarded conversion returns the table, converted or left as it was,
    and logs the failure if there was one. *)
Lemma guarded_conversion_run {A} fault name (set : row -> A -> row) (cell : row -> A)
    prefix df w :
  has_column name df = true -> (forall r, set r (cell r) = r) ->
  guarded (do cells <- convert fault (column cell df) ;
           ret (assign_column name set cells df)) prefix df w
  = (Returned df, logged (fault_message prefix fault) w).
Proof.
  intros Hcol Hown. destruct fault as [e|]; [reflexivity|].
  unfold guarded, try_except, bind, convert, ret. cbn [fault_message logged foldl].
  now rewrite assign_column_own.
Qed.

Lemma guarded_returned body prefix df w a w' :
  body w = (Returned a, w') -> guarded body prefix df w = (Returned a, w').
Proof. apply try_except_returned. Qed.

Lemma multiply_columns (data : list data_point) :
  zip_with with_power (map row_of_point data)
           (multiply (map row_voltage (map row_of_point data))
                     (map row_current (map row_of_point data)))
  = map processed_row data.
Proof. induction data as [|p l IH]; [done|]. cbn. f_equal. exact IH. Qed.

Lemma process_sensor_data_run pd (p : data_point) (l : list data_point) w :
  process_sensor_data pd (Some (p :: l)) w
  = (Returned (mkFrame ["id"; "timestamp"; "voltage"; "current"; "status"; "power"]
                       (map processed_row (p :: l))),
     logged (conversion_errors pd (Some (p :: l))) w).
Proof.
  unfold process_sensor_data, conversion_errors. apply try_except_returned.
  set (data := p :: l).
  change (frame_of_points data)
    with (mkFrame ["id"; "timestamp"; "voltage"; "current"; "status"]
                  (map row_of_point data)).
  set (cols := ["id"; "timestamp"; "voltage"; "current"; "status"]).
  set (df := mkFrame cols (map row_of_point data)).
  change (df_empty df) with false.
  change (has_column "timestamp" df) with true.
  change (has_column "voltage" df) with true.
  change (has_column "current" df) with true.
  cbv iota.
  assert (Ht : column row_timestamp df = map timestamp data)
    by (unfold column, df; cbn [rows]; now rewrite map_map).
  assert (Hv : column row_voltage df = map voltage data)
    by (unfold column, df; cbn [rows]; now rewrite map_map).
  assert (Hc : column row_current df = map current data)
    by (unfold column, df; cbn [rows]; now rewrite map_map).
  unfold to_datetime, astype_float, astype_str.
  rewrite (bind_returned _ _ _ _ _
             (guarded_conversion_run (to_datetime_fault pd (column row_timestamp df))
                "timestamp" with_timestamp row_timestamp _ df w eq_refl
                ltac:(now intros []))).
  change (has_column "voltage" df) with true. cbv iota.
  rewrite (bind_returned _ _ _ _ _
             (guarded_conversion_run (astype_float_fault pd (column row_voltage df))
                "voltage" with_voltage row_voltage _ df _ eq_refl
                ltac:(now intros []))).
  change (has_column "current" df) with true. cbv iota.
  rewrite (bind_returned _ _ _ _ _
             (guarded_conversion_run (astype_float_fault pd (column row_current df))
                "current" with_current row_current _ df _ eq_refl
                ltac:(now intros []))).
  change (has_column "voltage" df && has_column "current" df) with true. cbv iota.
  set (df' := mkFrame (cols ++ ["power"]) (map processed_row data)).
  assert (Hpower : assign_column "power" with_power
                     (multiply (column row_voltage df) (column row_current df)) df
                   = df').
  { unfold assign_column, column, df, df'. cbn [rows columns].
    change (has_column "power" (mkFrame cols (map row_of_point data))) with false.
    cbv iota. now rewrite multiply_columns. }
  rewrite Hpower.
  rewrite (bind_returned _ _ _ _ _
             (guarded_returned (ret df') "Error calculating power: " df _ df' _ eq_refl)).
  change (has_column "id" df') with true. cbv iota.
  assert (Hi : column row_id df' = map id data)
    by (unfold column, df'; cbn [rows]; now rewrite map_map).
  rewrite (bind_returned _ _ _ _ _
             (guarded_conversion_run (astype_str_fault pd (column row_id df'))
                "id" with_id row_id _ df' _ eq_refl
                ltac:(now intros []))).
  rewrite Ht, Hv, Hc, Hi, !logged_app. reflexivity.
Qed.

Lemma process_sensor_data_result pd data w :
  exists df,
    process_sensor_data pd data w = (Returned df, logged (conversion_errors pd data) w).
Proof.
  destruct data as [[|p l]|]; [now exists empty_frame | | now exists empty_frame].
  eexists. apply process_sensor_data_run.
Qed.

(** C7: post-processing never raises, whatever it is given and whichever of
    the library's conversions raise: it returns a table, having logged one
    message for each conversion that failed, whose column it leaves as it
    was.  On nothing or on an empty series the table is the empty one.  On
    the series of any call of the generator the table has a [power] column,
    and every row carries the fields of its reading unmodified and, as
    power, the product of its voltage and its current. *)
Theorem process_adds_power :
  forall pd : Pandas,
    (forall data w,
       exists df,
         process_sensor_data pd data w
         = (Returned df, logged (conversion_errors pd data) w))
    /\ (forall w, process_sensor_data pd None w = (Returned empty_frame, w)
                  /\ process_sensor_data pd (Some []) w = (Returned empty_frame, w))
    /\ (forall fuel start_date end_date ids interval w out w1 w2,
          generate_simulated_data fuel start_date end_date ids interval w
          = (Returned out, w1) ->
          exists df,
            process_sensor_data pd (Some out) w2
            = (Returned df, logged (conversion_errors pd (Some out)) w2)
            /\ (out <> [] -> has_column "power" df = true)
            /\ length (rows df) = length out
            /\ forall k p, out !! k = Some p ->
                 exists r, rows df !! k = Some r
                           /\ row_id r = id p /\ row_timestamp r = timestamp p
                           /\ row_voltage r = voltage p /\ row_current r = current p
                           /\ row_status r = status p
                           /\ row_power r = Some (row_voltage r * row_current r)%float).
Proof.
  intros pd. split; [|split].
  - apply process_sensor_data_result.
  - intros w. split; reflexivity.
  - intros fuel start_date end_date ids interval w out w1 w2 _.
    destruct out as [|p l].
    + exists empty_frame. repeat split; try done.
    + eexists. split; [apply process_sensor_data_run|].
      split; [reflexivity|]. cbn [rows]. split; [apply length_map|].
      intros k q Hq. exists (processed_row q). split; [|done].
      now rewrite list_lookup_fmap, Hq.
Qed.

(** The composition of C7 on a concrete call, with a library whose
    conversions all raise: the four failures are logged, nothing is shown
    on the page, and the table still carries the products. *)
Lemma process_adds_power_witness :
  exists out w1 df w2,
    generate_simulated_data 3 (mk_datetime 2024 1 1 0 0) (mk_datetime 2024 1 1 0 20)
                            (Some ["s1"]) 15 world0 = (Returned out, w1)
    /\ process_sensor_data pandas_raising (Some out) world0 = (Returned df, w2)
    /\ has_column "power" df = true
    /\ map row_power (rows df) = [Some 834.375%float; Some 755.625%float]
    /\ error_log w2
       = ["Error converting timestamps: Unknown datetime string format";
          "Error converting voltage: could not convert string to float";
          "Error converting current: could not convert string to float";
          "Error converting id: cannot convert the series to str"]
    /\ ui_errors w2 = [].
Proof.
  evar (out0 : list data_point). evar (w0 : World).
  assert (Hgen : generate_simulated_data 3 (mk_datetime 2024 1 1 0 0)
                   (mk_datetime 2024 1 1 0 20) (Some ["s1"]) 15 world0
                 = (Returned out0, w0))
    by (subst out0 w0; vm_compute; reflexivity).
  destruct (proj2 (proj2 (process_adds_power pandas_raising)) _ _ _ _ _ _ _ _ world0 Hgen)
    as (df & Hdf & Hcol & _).
  exists out0, w0, df. eexists. split; [exact Hgen|]. split; [exact Hdf|].
  split; [apply Hcol; discriminate|].
  unfold out0 in Hdf. rewrite process_sensor_data_run in Hdf.
  inversion Hdf. compute_all.
Defined.

(** ** C5: faults during generation *)

(** No wrapper lets an exception through. *)
Lemma try_except_never_raises {A} (body : M A) (handler : exn -> M A) w :
  (forall e w', exists a w'', handler e w' = (Returned a, w'')) ->
  forall e, fst (try_except body handler w) <> Raised e.
Proof.
  intros Hh e. unfold try_except.
  destruct (body w) as [[a|e'|] w']; cbn; try discriminate.
  destruct (Hh e' w') as (a & w'' & ->). discriminate.
Qed.

Lemma fetch_all_sensor_data_never_raises fuel w e :
  fst (fetch_all_sensor_data fuel w) <> Raised e.
Proof.
  apply try_except_never_raises. intros.
  cbv [bind report_error log_error st_error ret]. eexists; eexists; reflexivity.
Qed.

Lemma fetch_sensor_data_by_id_never_raises fuel sensor_id w e :
  fst (fetch_sensor_data_by_id fuel sensor_id w) <> Raised e.
Proof.
  apply try_except_never_raises. intros.
  cbv [bind report_error log_error st_error ret]. eexists; eexists; reflexivity.
Qed.

Lemma fetch_sensor_data_in_range_never_raises fuel start_date end_date sensor_id w e :
  fst (fetch_sensor_data_in_range fuel start_date end_date sensor_id w) <> Raised e.
Proof.
  apply try_except_never_raises. intros.
  cbv [bind report_error log_error st_error ret]. eexists; eexists; reflexivity.
Qed.

(** The three ways a by-id fetch can end: [None] with the fault logged, a
    list, or an exhausted loop budget. *)
Lemma fetch_sensor_data_by_id_on_fault fuel sensor_id w :
  (exists e w', fst (fetch_sensor_data_by_id fuel sensor_id w) = Returned None
                /\ error_log (snd (fetch_sensor_data_by_id fuel sensor_id w))
                   = error_log w'
                     ++ ["Error generating data for sensor " +:+ sensor_id +:+ ": "
                         +:+ str_exn e])
  \/ (exists data, fst (fetch_sensor_data_by_id fuel sensor_id w) = Returned (Some data))
  \/ fst (fetch_sensor_data_by_id fuel sensor_id w) = OutOfFuel.
Proof.
  unfold fetch_sensor_data_by_id, try_except.
  match goal with |- context [match ?b w with _ => _ end] => destruct (b w) as [[a|e|] w'] eqn:Hb end.
  - right. left. apply bind_inv_returned in Hb as (? & ? & _ & Hb).
    apply bind_inv_returned in Hb as (? & ? & _ & Hb).
    apply bind_inv_returned in Hb as (? & ? & _ & Hb).
    apply bind_inv_returned in Hb as (data & ? & _ & Hb).
    inversion Hb. now exists data.
  - left. exists e, w'. split; reflexivity.
  - right. right. reflexivity.
Qed.

(** C5, evaluated where generation faults.  With the clock at
    9999-12-31T23:59:59.999999 the week ending now is generated up to its
    last instant, and the step past it raises [OverflowError].  Every
    wrapper catches and logs the fault; the all-sensors and date-range
    wrappers hand back the empty list, the by-id wrapper hands back [None],
    whose length a caller cannot take. *)
Theorem fetch_sensor_data_by_id_fault_gives_None :
  fst (fetch_sensor_data_by_id 700 "sensor-001" world_late) = Returned None
  /\ error_log (snd (fetch_sensor_data_by_id 700 "sensor-001" world_late))
     = ["Error generating data for sensor sensor-001: date value out of range"]
  /\ ui_errors (snd (fetch_sensor_data_by_id 700 "sensor-001" world_late))
     = ["Error generating data for sensor sensor-001: date value out of range"]
  /\ fst (fetch_all_sensor_data 700 world_late) = Returned (Some [])
  /\ fst (fetch_sensor_data_in_range 700 (DATETIME_MAX - 7 * US_PER_DAY) DATETIME_MAX
                                     (Some "sensor-001") world_late)
     = Returned (Some [])
  /\ fst (bind (fetch_sensor_data_by_id 700 "sensor-001") py_len world_late)
     = Raised (TypeError "object of type 'NoneType' has no len()")
  /\ fst (bind (fetch_all_sensor_data 700) py_len world_late) = Returned 0%nat.
Proof. compute_all. Qed.

(** ** C4: what a fetch does to the cursor and the buffer *)

Create HintDb playback.

Lemma keeps_session_playback {A} (c : M A) : keeps_session c -> keeps_playback c.
Proof. intros H w. now rewrite H. Qed.

Lemma keeps_session_ret {A} (a : A) : keeps_session (ret a).
Proof. now intros w. Qed.

Lemma keeps_session_raise {A} e : keeps_session (@raise A e).
Proof. now intros w. Qed.

Lemma keeps_session_out_of_fuel {A} : keeps_session (@out_of_fuel A).
Proof. now intros w. Qed.

Lemma keeps_session_bind {A B} (c : M A) (k : A -> M B) :
  keeps_session c -> (forall a, keeps_session (k a)) -> keeps_session (bind c k).
Proof.
  intros Hc Hk w. unfold bind. specialize (Hc w).
  destruct (c w) as [[a|e|] w']; cbn in *; try done.
  now rewrite Hk.
Qed.

Lemma keeps_session_try_except {A} (body : M A) handler :
  keeps_session body -> (forall e, keeps_session (handler e)) ->
  keeps_session (try_except body handler).
Proof.
  intros Hb Hh w. unfold try_except. specialize (Hb w).
  destruct (body w) as [[a|e|] w']; cbn in *; try done.
  now rewrite Hh.
Qed.

Lemma keeps_session_random : keeps_session random.
Proof. now intros w. Qed.

Lemma keeps_session_log_error msg : keeps_session (log_error msg).
Proof. now intros w. Qed.

Lemma keeps_session_st_error msg : keeps_session (st_error msg).
Proof. now intros w. Qed.

Lemma keeps_session_datetime_now : keeps_session datetime_now.
Proof. now intros w. Qed.

Lemma keeps_session_get_session : keeps_session get_session.
Proof. now intros w. Qed.

#[local] Hint Resolve keeps_session_ret keeps_session_raise keeps_session_out_of_fuel
  keeps_session_random keeps_session_log_error keeps_session_st_error
  keeps_session_datetime_now keeps_session_get_session : playback.

(** Take a computation apart along its binds, handlers and branches. *)
Ltac keeps_step :=
  first
    [ solve [eauto with playback]
    | apply keeps_session_bind; [|intros ?]
    | apply keeps_session_try_except; [|intros ?]
    | match goal with
      | |- keeps_session (if ?b then _ else _) => destruct b
      | |- keeps_session (match ?x with _ => _ end) => destruct x
      | |- keeps_session (let _ := _ in _) => cbv zeta
      end ].

Ltac keeps := repeat keeps_step; eauto with playback.

Lemma keeps_session_uniform a b : keeps_session (uniform a b).
Proof. unfold uniform. keeps. Qed.

Lemma keeps_session_report_error msg : keeps_session (report_error msg).
Proof. unfold report_error. keeps. Qed.

Lemma keeps_session_make_timedelta us : keeps_session (make_timedelta us).
Proof. unfold make_timedelta. keeps. Qed.

Lemma keeps_session_datetime_add t d : keeps_session (datetime_add t d).
Proof. unfold datetime_add. keeps. Qed.

#[local] Hint Resolve keeps_session_uniform keeps_session_report_error
  keeps_session_make_timedelta keeps_session_datetime_add : playback.

Lemma keeps_session_draw_base_values ids : forall bv,
  keeps_session (draw_base_values ids bv).
Proof. induction ids as [|x l IH]; intros bv; cbn [draw_base_values]; keeps. Qed.

Lemma keeps_session_dict_get bv sid : keeps_session (dict_get bv sid).
Proof. unfold dict_get. keeps. Qed.

#[local] Hint Resolve keeps_session_dict_get : playback.

Lemma keeps_session_make_data_point t bv sid : keeps_session (make_data_point t bv sid).
Proof. unfold make_data_point. keeps. Qed.

#[local] Hint Resolve keeps_session_draw_base_values keeps_session_make_data_point
  : playback.

Lemma keeps_session_for_sensors t bv ids : forall data,
  keeps_session (for_sensors t bv ids data).
Proof. induction ids as [|x l IH]; intros data; cbn [for_sensors]; keeps. Qed.

#[local] Hint Resolve keeps_session_for_sensors : playback.

Lemma keeps_session_while_loop fuel : forall t end_date bv ids interval data,
  keeps_session (while_loop fuel t end_date bv ids interval data).
Proof.
  induction fuel as [|fuel IH]; intros; cbn [while_loop]; unfold timedelta_minutes; keeps.
Qed.

#[local] Hint Resolve keeps_session_while_loop : playback.

Lemma keeps_session_generate fuel start_date end_date ids interval :
  keeps_session (generate_simulated_data fuel start_date end_date ids interval).
Proof. unfold generate_simulated_data. keeps. Qed.

#[local] Hint Resolve keeps_session_generate : playback.

Lemma keeps_session_fetch_in_range fuel start_date end_date sensor_id :
  keeps_session (fetch_sensor_data_in_range fuel start_date end_date sensor_id).
Proof. unfold fetch_sensor_data_in_range. keeps. Qed.

Lemma keeps_session_fetch_selected fuel c : keeps_session (fetch_selected fuel c).
Proof. unfold fetch_selected. destruct (decide _); apply keeps_session_fetch_in_range. Qed.

Lemma keeps_session_convert {A} fault (cells : list A) :
  keeps_session (convert fault cells).
Proof. unfold convert. keeps. Qed.

Lemma keeps_session_guarded body prefix df :
  keeps_session body -> keeps_session (guarded body prefix df).
Proof. intros Hb. unfold guarded. keeps. Qed.

#[local] Hint Resolve keeps_session_convert : playback.

Lemma keeps_session_process pd data : keeps_session (process_sensor_data pd data).
Proof.
  unfold process_sensor_data, to_datetime, astype_float, astype_str.
  apply keeps_session_try_except; [|intros e; keeps].
  destruct data as [[|p l]|]; [keeps | | keeps].
  destruct (df_empty _); [keeps|].
  repeat (apply keeps_session_bind;
          [match goal with
           | |- keeps_session (if ?b then _ else _) =>
               destruct b; [apply keeps_session_guarded|]; keeps
           end
          | intros ?]).
  keeps.
Qed.

Lemma keeps_playback_bind {A B} (c : M A) (k : A -> M B) :
  keeps_playback c -> (forall a, keeps_playback (k a)) -> keeps_playback (bind c k).
Proof.
  intros Hc Hk w. unfold bind. specialize (Hc w).
  destruct (c w) as [[a|e|] w']; cbn in *; try done.
  destruct (Hk a w') as [H1 H2]. destruct Hc as [H3 H4]. split; congruence.
Qed.

Lemma keeps_playback_try_except {A} (body : M A) handler :
  keeps_playback body -> (forall e, keeps_playback (handler e)) ->
  keeps_playback (try_except body handler).
Proof.
  intros Hb Hh w. unfold try_except. specialize (Hb w).
  destruct (body w) as [[a|e|] w']; cbn in *; try done.
  destruct (Hh e w') as [H1 H2]. destruct Hb as [H3 H4]. split; congruence.
Qed.

(** Storing a batch writes the batch and the refresh time, nothing else. *)
Lemma keeps_playback_store_batch df : keeps_playback (store_batch df).
Proof. intros w. split; reflexivity. Qed.

Lemma keeps_playback_auto_refresh_block pd fuel c :
  keeps_playback (auto_refresh_block pd fuel c).
Proof.
  unfold auto_refresh_block.
  destruct (auto_refresh c && negb (simulation_mode c));
    [|apply keeps_session_playback; keeps].
  apply keeps_playback_bind; [apply keeps_session_playback; keeps|]. intros ss.
  destruct (last_refresh ss) as [last|]; [|apply keeps_session_playback; keeps].
  apply keeps_playback_bind; [apply keeps_session_playback; keeps|]. intros now.
  destruct (_ <? _); [|apply keeps_session_playback; keeps].
  apply keeps_playback_try_except.
  - apply keeps_playback_bind;
      [apply keeps_session_playback, keeps_session_fetch_selected|]. intros sensor_data.
    apply keeps_playback_bind;
      [apply keeps_session_playback, keeps_session_process|]. intros df.
    apply keeps_playback_store_batch.
  - intros e. apply keeps_session_playback. keeps.
Qed.

(** The button's fetch does reset the cursor and drop the buffer. *)
Lemma fetch_button_resets_playback :
  exists df,
    sensor_data
      (session (snd (fetch_button_block pandas_returning 10 controls_button world_playing)))
    = Some df
    /\ df_len df = 15%nat
    /\ simulation_index
         (session (snd (fetch_button_block pandas_returning 10 controls_button
                          world_playing)))
       = Some 0%nat
    /\ real_time_buffer
         (session (snd (fetch_button_block pandas_returning 10 controls_button
                          world_playing)))
       = None.
Proof. eexists. compute_all. Qed.

Lemma logged_frame msgs : forall w,
  session (logged msgs w) = session w /\ clock (logged msgs w) = clock w.
Proof.
  induction msgs as [|m msgs IH]; intros w; [done|].
  cbn [logged foldl]. destruct (IH (snd (log_error m w))) as [H1 H2].
  unfold logged in *. now rewrite H1, H2.
Qed.

(** The table post-processing returns for a list of readings. *)
Lemma process_sensor_data_rows pd data w df w' :
  process_sensor_data pd (Some data) w = (Returned df, w') ->
  rows df = map processed_row data
  /\ session w' = session w /\ clock w' = clock w.
Proof.
  destruct data as [|p l].
  - intros H. inversion H. done.
  - rewrite process_sensor_data_run. intros H. inversion H.
    split; [reflexivity | apply logged_frame].
Qed.

(** A run of the auto-refresh block when a refresh is due. *)
Lemma auto_refresh_block_run pd fuel c w last data w1 :
  auto_refresh c = true -> simulation_mode c = false ->
  last_refresh (session w) = Some last ->
  refresh_interval c * US_PER_SECOND < clock w - last ->
  fetch_selected fuel c w = (Returned (Some data), w1) ->
  exists df,
    rows df = map processed_row data
    /\ session (snd (auto_refresh_block pd fuel c w))
       = set_last_refresh (set_sensor_data (session w1) df) (clock w1).
Proof.
  intros Hauto Hmode Hlast Hdue Hfetch.
  destruct (process_sensor_data_result pd (Some data) w1) as (df & Hproc).
  destruct (process_sensor_data_rows pd data w1 df _ Hproc) as (Hrows & Hs & Hc).
  exists df. split; [exact Hrows|].
  unfold auto_refresh_block. rewrite Hauto, Hmode. cbn [andb negb].
  rewrite (bind_returned _ _ _ _ _ (eq_refl : get_session w = (Returned (session w), w))).
  rewrite Hlast.
  rewrite (bind_returned _ _ _ _ _ (eq_refl : datetime_now w = (Returned (clock w), w))).
  rewrite (proj2 (Z.ltb_lt _ _) Hdue). unfold try_except.
  rewrite (bind_returned _ _ _ _ _ Hfetch), (bind_returned _ _ _ _ _ Hproc).
  rewrite <- Hs, <- Hc. reflexivity.
Qed.

(** C4, evaluated on the auto-refresh path: no run of the auto-refresh block
    changes the cursor or the buffer; in particular, from a session in the
    middle of a playback, the block fetches and stores a new batch of 15
    rows and leaves the cursor at 57 and the seven old rows in the buffer. *)
Theorem auto_refresh_keeps_cursor_and_buffer :
  forall pd : Pandas,
    (forall fuel c w,
       simulation_index (session (snd (auto_refresh_block pd fuel c w)))
       = simulation_index (session w)
       /\ real_time_buffer (session (snd (auto_refresh_block pd fuel c w)))
          = real_time_buffer (session w))
    /\ exists df,
         sensor_data (session (snd (auto_refresh_block pd 10 controls_auto world_playing)))
         = Some df
         /\ df_len df = 15%nat
         /\ last_refresh
              (session (snd (auto_refresh_block pd 10 controls_auto world_playing)))
            = Some (mk_datetime 2024 1 1 12 0)
         /\ simulation_index
              (session (snd (auto_refresh_block pd 10 controls_auto world_playing)))
            = Some 57%nat
         /\ real_time_buffer
              (session (snd (auto_refresh_block pd 10 controls_auto world_playing)))
            = Some (numbered_frame 50 7).
Proof.
  intros pd. split.
  - intros fuel c w. apply keeps_playback_auto_refresh_block.
  - evar (data0 : list data_point). evar (w0 : World).
    assert (Hfetch : fetch_selected 10 controls_auto world_playing
                     = (Returned (Some data0), w0))
      by (subst data0 w0; vm_compute; reflexivity).
    destruct (auto_refresh_block_run pd 10 controls_auto world_playing
                (mk_datetime 2024 1 1 11 59) data0 w0
                eq_refl eq_refl eq_refl ltac:(vm_compute; reflexivity) Hfetch)
      as (df & Hrows & ->).
    exists df. split; [reflexivity|].
    split; [unfold df_len; rewrite Hrows, length_map; vm_compute; reflexivity|].
    compute_all.
Qed.


(** * Further properties of the code *)

(** ** The generator at the edges of its input *)

Lemma while_loop_past fuel t end_date bv ids interval data w :
  end_date < t ->
  while_loop (S fuel) t end_date bv ids interval data w = (Returned data, w).
Proof.
  intros H. cbn [while_loop].
  destruct (Z.leb_spec t end_date); [lia | reflexivity].
Qed.

(** X1: when the start lies after the end the loop body never runs: the
    call returns the empty list, having drawn only the two baselines of
    each sensor. *)
Theorem generate_empty_range :
  forall fuel (start_date end_date : datetime) ids (interval : Z) w,
    end_date < start_date ->
    generate_simulated_data (S fuel) start_date end_date ids interval w
    = (Returned [], skip_draws (2 * length (effective_sensor_ids ids)) w).
Proof.
  intros fuel start_date end_date ids interval w H.
  rewrite generate_unfold. now apply while_loop_past.
Qed.

Lemma generate_empty_range_witness :
  mk_datetime 2024 1 1 0 0 < mk_datetime 2024 1 2 0 0
  /\ generate_simulated_data 1 (mk_datetime 2024 1 2 0 0) (mk_datetime 2024 1 1 0 0)
                             (Some ["s1"]) 15 world0
     = (Returned [], skip_draws 2 world0).
Proof.
  assert (H : mk_datetime 2024 1 1 0 0 < mk_datetime 2024 1 2 0 0)
    by (vm_compute; reflexivity).
  split; [exact H|].
  exact (generate_empty_range 0 _ _ (Some ["s1"]) 15 world0 H).
Defined.

Lemma while_loop_never_returns fuel : forall t end_date bv ids interval data w out w',
  interval <= 0 -> t <= end_date ->
  while_loop fuel t end_date bv ids interval data w <> (Returned out, w').
Proof.
  induction fuel as [|fuel IH]; intros t end_date bv ids interval data w out w' Hi Ht H.
  - discriminate.
  - cbn [while_loop] in H. destruct (Z.leb_spec t end_date) as [_|Hgt]; [|lia].
    apply bind_inv_returned in H as (data' & w1 & _ & H).
    apply bind_inv_returned in H as (step & w2 & Hstep & H).
    apply make_timedelta_inv in Hstep as [-> ->].
    apply bind_inv_returned in H as (t' & w3 & Ht' & H).
    apply datetime_add_inv in Ht' as [-> ->].
    revert H. apply IH; [done|].
    assert (interval * US_PER_MINUTE <= 0)
      by (apply Z.mul_nonpos_nonneg; [done | vm_compute; discriminate]).
    lia.
Qed.

(** X2: with an interval of zero or less and a start not after the end the
    call never returns a series, whatever the loop budget: the time does
    not move forward, so the loop goes on until something else stops it. *)
Theorem generate_needs_positive_interval :
  forall fuel (start_date end_date : datetime) ids (interval : Z) w out w',
    interval <= 0 -> start_date <= end_date ->
    generate_simulated_data fuel start_date end_date ids interval w
    <> (Returned out, w').
Proof.
  intros fuel start_date end_date ids interval w out w' Hi Hle.
  rewrite generate_unfold. now apply while_loop_never_returns.
Qed.

Lemma generate_needs_positive_interval_witness :
  -15 <= 0 /\ mk_datetime 2024 1 1 0 0 <= mk_datetime 2024 1 1 1 0
  /\ (forall out w',
        generate_simulated_data 100 (mk_datetime 2024 1 1 0 0) (mk_datetime 2024 1 1 1 0)
                                (Some ["s1"]) (-15) world0 <> (Returned out, w'))
  /\ fst (generate_simulated_data 100 (mk_datetime 2024 1 1 0 0)
             (mk_datetime 2024 1 1 1 0) (Some ["s1"]) (-15) world0) = OutOfFuel.
Proof.
  assert (H1 : -15 <= 0) by lia.
  assert (H2 : mk_datetime 2024 1 1 0 0 <= mk_datetime 2024 1 1 1 0)
    by (vm_compute; discriminate).
  split; [exact H1|]. split; [exact H2|]. split.
  - intros out w'.
    exact (generate_needs_positive_interval 100 _ _ (Some ["s1"]) (-15) world0 out w' H1 H2).
  - vm_compute. reflexivity.
Defined.

Lemma while_loop_stands_still fuel : forall t end_date bv ids data w,
  (forall sid, sid ∈ ids -> is_Some (bv !! sid)) ->
  0 <= t <= DATETIME_MAX -> t <= end_date ->
  fst (while_loop fuel t end_date bv ids 0 data w) = OutOfFuel.
Proof.
  induction fuel as [|fuel IH]; intros t end_date bv ids data w Hin Ht Hle; [done|].
  cbn [while_loop]. destruct (Z.leb_spec t end_date) as [_|Hgt]; [|lia].
  rewrite (bind_returned _ _ _ _ _ (for_sensors_run t bv ids data w Hin)).
  unfold timedelta_minutes.
  rewrite (bind_returned _ _ _ _ _
             (make_timedelta_run (0 * US_PER_MINUTE) _ ltac:(vm_compute; split; discriminate))).
  rewrite (bind_returned _ _ _ _ _
             (datetime_add_run t (0 * US_PER_MINUTE) _ ltac:(cbn; lia))).
  apply IH; try done; cbn; lia.
Qed.

(** X3: with an interval of zero and a valid start not after the end the
    loop neither returns nor raises: every budget is used up, one round of
    readings of the same instant after the other. *)
Theorem generate_zero_interval_loops :
  forall fuel (start_date end_date : datetime) ids w,
    0 <= start_date <= DATETIME_MAX -> start_date <= end_date ->
    fst (generate_simulated_data fuel start_date end_date ids 0 w) = OutOfFuel.
Proof.
  intros fuel start_date end_date ids w Hv Hle.
  rewrite generate_unfold. apply while_loop_stands_still; try done.
  intros sid Hs. now apply base_values_of_covers.
Qed.

Lemma generate_zero_interval_loops_witness :
  0 <= mk_datetime 2024 1 1 0 0 <= DATETIME_MAX
  /\ mk_datetime 2024 1 1 0 0 <= mk_datetime 2024 1 1 1 0
  /\ fst (generate_simulated_data 1000 (mk_datetime 2024 1 1 0 0)
             (mk_datetime 2024 1 1 1 0) None 0 world0) = OutOfFuel.
Proof.
  assert (H1 : 0 <= mk_datetime 2024 1 1 0 0 <= DATETIME_MAX)
    by (vm_compute; split; discriminate).
  assert (H2 : mk_datetime 2024 1 1 0 0 <= mk_datetime 2024 1 1 1 0)
    by (vm_compute; discriminate).
  split; [exact H1|]. split; [exact H2|].
  exact (generate_zero_interval_loops 1000 _ _ None world0 H1 H2).
Defined.

Lemma n_instants_positive (t end_date : datetime) (step : timedelta) :
  0 < step -> (1 <= n_instants t end_date step)%nat -> t <= end_date.
Proof.
  intros Hs Hn. destruct (Z.le_gt_cases t end_date) as [H|H]; [done|].
  rewrite n_instants_past in Hn by lia. lia.
Qed.

Lemma make_timedelta_cases us w :
  make_timedelta us w = (Returned us, w)
  \/ exists msg, make_timedelta us w = (Raised (OverflowError msg), w).
Proof. unfold make_timedelta. destruct (_ && _); [now left | right; eauto]. Qed.

Lemma while_loop_overflow fuel :
  forall (t end_date : datetime) bv ids (interval : Z) data w,
  (forall sid, sid ∈ ids -> is_Some (bv !! sid)) ->
  0 < interval -> 0 <= t -> t <= end_date ->
  DATETIME_MAX < t + Z.of_nat (n_instants t end_date (interval * US_PER_MINUTE))
                     * (interval * US_PER_MINUTE) ->
  (n_instants t end_date (interval * US_PER_MINUTE)%Z <= fuel)%nat ->
  exists msg w',
    while_loop fuel t end_date bv ids interval data w = (Raised (OverflowError msg), w').
Proof.
  induction fuel as [|fuel IH]; intros t end_date bv ids interval data w Hin Hi Ht Hle Hover Hfuel.
  - pose proof (n_instants_step t end_date _ (step_pos _ Hi) Hle). lia.
  - pose proof (step_pos _ Hi) as Hs.
    cbn [while_loop]. destruct (Z.leb_spec t end_date) as [_|Hgt]; [|lia].
    rewrite (bind_returned _ _ _ _ _ (for_sensors_run t bv ids data w Hin)).
    rewrite (n_instants_step t) in Hover, Hfuel by done.
    unfold timedelta_minutes.
    set (step := interval * US_PER_MINUTE) in *.
    set (n := n_instants (t + step) end_date step) in *.
    destruct (make_timedelta_cases step (skip_draws (3 * length ids) w))
      as [Hstep|[msg Hstep]].
    2:{ rewrite (bind_raised _ _ _ _ _ Hstep). eauto. }
    rewrite (bind_returned _ _ _ _ _ Hstep).
    destruct (Z.le_gt_cases (t + step) DATETIME_MAX) as [Hok|Hbad].
    2:{ rewrite (bind_raised _ _ _ _ _ (datetime_add_overflow t step _ Hbad)). eauto. }
    rewrite (bind_returned _ _ _ _ _ (datetime_add_run t step _ ltac:(lia))).
    assert (Hn : (1 <= n)%nat) by (destruct n; [nia | lia]).
    apply IH; try done; fold step; fold n; try lia; try nia.
    now apply (n_instants_positive _ _ step).
Qed.

(** X4: the other side of the calendar condition.  With a positive interval,
    a valid start not after the end and a budget that covers the rounds,
    the call raises [OverflowError] when the instant one step after the last
    sample lies past [datetime.max]; the readings made until then are lost. *)
Theorem generate_overflows_past_the_calendar :
  forall fuel (start_date end_date : datetime) ids (interval : Z) w,
    0 < interval -> 0 <= start_date -> start_date <= end_date ->
    DATETIME_MAX < start_date
                   + Z.of_nat (n_instants start_date end_date (interval * US_PER_MINUTE))
                     * (interval * US_PER_MINUTE) ->
    (n_instants start_date end_date (interval * US_PER_MINUTE)%Z <= fuel)%nat ->
    exists msg w',
      generate_simulated_data fuel start_date end_date ids interval w
      = (Raised (OverflowError msg), w').
Proof.
  intros fuel start_date end_date ids interval w Hi H0 Hle Hover Hfuel.
  rewrite generate_unfold. apply while_loop_overflow; try done.
  intros sid Hs. now apply base_values_of_covers.
Qed.

(** The last half hour of the calendar, every 15 minutes. *)
Lemma generate_overflows_past_the_calendar_witness :
  0 < 15 /\ 0 <= DATETIME_MAX - 30 * US_PER_MINUTE
  /\ DATETIME_MAX - 30 * US_PER_MINUTE <= DATETIME_MAX
  /\ fst (generate_simulated_data 3 (DATETIME_MAX - 30 * US_PER_MINUTE) DATETIME_MAX
            (Some ["s1"]) 15 world0)
     = Raised (OverflowError "date value out of range").
Proof.
  assert (H1 : 0 < 15) by lia.
  assert (H2 : 0 <= DATETIME_MAX - 30 * US_PER_MINUTE) by (vm_compute; discriminate).
  assert (H3 : DATETIME_MAX - 30 * US_PER_MINUTE <= DATETIME_MAX)
    by (vm_compute; discriminate).
  split; [exact H1|]. split; [exact H2|]. split; [exact H3|].
  destruct (generate_overflows_past_the_calendar 3 _ _ (Some ["s1"]) 15 world0 H1 H2 H3)
    as (msg & w' & H).
  - vm_compute. reflexivity.
  - vm_compute. lia.
  - vm_compute. reflexivity.
Defined.

(** ** What a call costs and what it leaves alone *)

(** X5: a call that returns has consumed two draws per sensor and three
    per reading, and has changed nothing else: the clock, the logs and the
    session are as before. *)
Theorem generate_consumes_draws :
  forall fuel start_date end_date ids interval w out w',
    generate_simulated_data fuel start_date end_date ids interval w = (Returned out, w') ->
    w' = skip_draws (2 * length (effective_sensor_ids ids) + 3 * length out) w.
Proof.
  intros fuel start_date end_date ids interval w out w' H.
  rewrite generate_unfold in H.
  apply while_loop_returned in H as (m & -> & -> & _).
  - cbn [app]. rewrite series_length, skip_draws_skip_draws. f_equal. lia.
  - intros sid Hs. now apply base_values_of_covers.
Qed.

Lemma generate_consumes_draws_witness :
  exists out w',
    generate_simulated_data 6 (mk_datetime 2024 1 1 0 0) (mk_datetime 2024 1 1 1 0)
                            (Some ["a"; "b"]) 15 world0 = (Returned out, w')
    /\ length out = 10%nat
    /\ rand_pos w' = 34%nat /\ clock w' = clock world0 /\ session w' = session world0.
Proof.
  evar (out0 : list data_point). evar (w0 : World).
  assert (Hgen : generate_simulated_data 6 (mk_datetime 2024 1 1 0 0)
                   (mk_datetime 2024 1 1 1 0) (Some ["a"; "b"]) 15 world0
                 = (Returned out0, w0))
    by (subst out0 w0; vm_compute; reflexivity).
  exists out0, w0. split; [exact Hgen|]. split; [reflexivity|].
  rewrite (generate_consumes_draws _ _ _ _ _ _ _ _ Hgen).
  repeat split.
Defined.

(** ** The other fields of a reading *)

(** X6: in the output of any call, reading number [k] has the current
    [current_base + v], where [current_base] is the baseline drawn for its
    sensor and [v] is [random.uniform(-1, 1)] at the second of the
    reading's three draws, and its status is "normal" when the third draw
    exceeds 0.05 and "warning" otherwise; no other status occurs. *)
Theorem current_and_status :
  forall fuel start_date end_date ids interval w bv w1 out w' (k : nat) r,
    draw_base_values (effective_sensor_ids ids) ∅ w = (Returned bv, w1) ->
    generate_simulated_data fuel start_date end_date ids interval w = (Returned out, w') ->
    out !! k = Some r ->
    exists b v s,
      bv !! id r = Some b
      /\ fst (uniform (-1) 1 (skip_draws (3 * k + 1) w1)) = Returned v
      /\ fst (random (skip_draws (3 * k + 2) w1)) = Returned s
      /\ current r = (current_base b + v)%float
      /\ status r = (if (0.05 <? s)%float then "normal" else "warning")
      /\ (status r = "normal" \/ status r = "warning").
Proof.
  intros fuel start_date end_date ids interval w bv w1 out w' k r Hbv Hgen Hk.
  rewrite draw_base_values_run in Hbv. inversion Hbv; subst bv w1; clear Hbv.
  apply generate_returned in Hgen as (m & -> & _).
  apply series_lookup in Hk as (sid & Hsid & ->).
  set (ids' := effective_sensor_ids ids) in *.
  destruct (base_values_of_covers ids' ∅ (rand_tape w) (rand_pos w) sid) as [b Hb].
  { eapply list_elem_of_lookup_2; eauto. }
  rewrite (lookup_total_correct _ _ _ Hb).
  exists b, (uniform_at (-1) 1 (rand_tape w) (S (3 * k + (2 * length ids' + rand_pos w)))),
         (rand_tape w (S (S (3 * k + (2 * length ids' + rand_pos w))))).
  cbn [id point_at current status].
  split; [exact Hb|].
  split.
  { rewrite skip_draws_skip_draws, uniform_run. cbn [fst rand_tape rand_pos skip_draws].
    f_equal. f_equal. lia. }
  split.
  { rewrite skip_draws_skip_draws, random_run. cbn [fst rand_tape rand_pos skip_draws].
    f_equal. f_equal. lia. }
  split; [reflexivity|]. split; [reflexivity|].
  destruct (0.05 <? _)%float; auto.
Qed.

Lemma current_and_status_witness :
  exists bv w1 out w' r,
    draw_base_values ["s1"] ∅ world0 = (Returned bv, w1)
    /\ generate_simulated_data 4 (mk_datetime 2024 1 1 17 50) (mk_datetime 2024 1 1 18 10)
                               (Some ["s1"]) 10 world0 = (Returned out, w')
    /\ out !! 1%nat = Some r
    /\ exists b v s,
         bv !! id r = Some b
         /\ fst (uniform (-1) 1 (skip_draws 4 w1)) = Returned v
         /\ fst (random (skip_draws 5 w1)) = Returned s
         /\ current r = (current_base b + v)%float
         /\ status r = (if (0.05 <? s)%float then "normal" else "warning")
         /\ (status r = "normal" \/ status r = "warning").
Proof.
  pose proof (draw_base_values_run ["s1"] ∅ world0) as Hbv.
  evar (out0 : list data_point). evar (w0 : World).
  assert (Hgen : generate_simulated_data 4 (mk_datetime 2024 1 1 17 50)
                   (mk_datetime 2024 1 1 18 10) (Some ["s1"]) 10 world0
                 = (Returned out0, w0))
    by (subst out0 w0; vm_compute; reflexivity).
  eexists. eexists. exists out0, w0. eexists.
  split; [exact Hbv|]. split; [exact Hgen|]. split; [reflexivity|].
  exact (current_and_status 4 _ _ (Some ["s1"]) 10 world0 _ _ _ _ 1%nat _
           Hbv Hgen eq_refl).
Defined.

(** ** The evening window *)

(** X7: the voltage drop applies exactly to the instants whose time of day
    lies from 18:00:00 up to, not including, 23:00:00. *)
Theorem evening_window :
  forall t : datetime,
    evening t = true <-> 18 * US_PER_HOUR <= t mod US_PER_DAY < 23 * US_PER_HOUR.
Proof.
  intros t. unfold evening, hour.
  change US_PER_DAY with (US_PER_HOUR * 24).
  rewrite Z.rem_mul_r; [|intros H; vm_compute in H; discriminate H | reflexivity].
  pose proof (Z.mod_pos_bound t US_PER_HOUR ltac:(reflexivity)) as Hr.
  pose proof (Z.mod_pos_bound (t / US_PER_HOUR) 24 ltac:(reflexivity)) as Hh.
  set (r := t mod US_PER_HOUR) in *. set (h := (t / US_PER_HOUR) mod 24) in *.
  rewrite andb_true_iff, !Z.leb_le.
  change US_PER_HOUR with 3600000000 in *. lia.
Qed.

(** ** The dict of baselines *)

Lemma base_values_of_app l1 : forall l2 bv tape p,
  base_values_of (l1 ++ l2) bv tape p
  = base_values_of l2 (base_values_of l1 bv tape p) tape (2 * length l1 + p).
Proof.
  induction l1 as [|x l1 IH]; intros l2 bv tape p; [done|].
  cbn [app base_values_of length]. rewrite IH. f_equal. lia.
Qed.

Lemma base_values_of_other ids : forall bv tape p sid,
  sid ∉ ids -> base_values_of ids bv tape p !! sid = bv !! sid.
Proof.
  induction ids as [|x l IH]; intros bv tape p sid H; [done|].
  cbn [base_values_of]. apply not_elem_of_cons in H as [Hne Hl].
  rewrite IH by done. now rewrite lookup_insert_ne.
Qed.

Lemma base_values_of_keys ids : forall bv tape p sid,
  is_Some (base_values_of ids bv tape p !! sid) <-> sid ∈ ids \/ is_Some (bv !! sid).
Proof.
  induction ids as [|x l IH]; intros bv tape p sid; cbn [base_values_of].
  - rewrite elem_of_nil. tauto.
  - rewrite IH, elem_of_cons. destruct (decide (x = sid)) as [->|Hne].
    + rewrite lookup_insert_eq. split; [auto | intros _; right; eauto].
    + rewrite lookup_insert_ne by done. split; [tauto | intros [[->|]|]; tauto].
Qed.

(** X8: the dict of baselines has exactly the sensors of the list as keys,
    and a sensor that occurs more than once in the list keeps the pair of
    baselines drawn at its last occurrence: all its readings share that
    pair. *)
Theorem baselines_last_occurrence_wins :
  forall (before after : list string) (sid : string) w bv w1,
    sid ∉ after ->
    draw_base_values (before ++ sid :: after) ∅ w = (Returned bv, w1) ->
    (forall key, is_Some (bv !! key) <-> key ∈ before ++ sid :: after)
    /\ exists vb cb,
         fst (uniform 110 125 (skip_draws (2 * length before) w)) = Returned vb
         /\ fst (uniform 4 8 (skip_draws (2 * length before + 1) w)) = Returned cb
         /\ bv !! sid = Some (mkBase vb cb).
Proof.
  intros before after sid w bv w1 Hafter H.
  rewrite draw_base_values_run in H. inversion H; subst bv w1; clear H. split.
  - intros key. rewrite base_values_of_keys, lookup_empty.
    split; [intros [?|[? ?]]; done | auto].
  - exists (uniform_at 110 125 (rand_tape w) (2 * length before + rand_pos w)),
           (uniform_at 4 8 (rand_tape w) (S (2 * length before + rand_pos w))).
    split; [reflexivity|]. split.
    { rewrite uniform_run. cbn [fst rand_tape rand_pos skip_draws].
      f_equal. f_equal. lia. }
    rewrite base_values_of_app. cbn [base_values_of].
    rewrite base_values_of_other by done. now rewrite lookup_insert_eq.
Qed.

(** The list ["a"; "b"; "a"]: sensor "a" keeps its second pair, the fifth
    and sixth draws. *)
Lemma baselines_last_occurrence_wins_witness :
~ "a" ∈ @nil string
  /\ exists bv w1,
       draw_base_values ["a"; "b"; "a"] ∅ world0 = (Returned bv, w1)
       /\ bv !! "a" = Some (mkBase (uniform_at 110 125 (rand_tape world0) 4)
                                   (uniform_at 4 8 (rand_tape world0) 5))
       /\ (is_Some (bv !! "c") <-> "c" ∈ ["a"; "b"; "a"]).
Proof.
  assert (H1 : ~ "a" ∈ @nil string) by apply not_elem_of_nil.
  split; [exact H1|].
  pose proof (draw_base_values_run ["a"; "b"; "a"] ∅ world0) as Hbv.
  destruct (baselines_last_occurrence_wins ["a"; "b"] [] "a" world0 _ _ H1 Hbv)
    as (Hkeys & vb & cb & Hvb & Hcb & Ha).
  eexists. eexists. split; [exact Hbv|]. split; [|apply Hkeys].
  rewrite Ha. inversion Hvb. inversion Hcb. reflexivity.
Defined.

(** ** The fetch wrappers as a caller sees them *)

Lemma for_sensors_cases t bv ids : forall data w,
  (exists out w', for_sensors t bv ids data w = (Returned out, w'))
  \/ (exists e w', for_sensors t bv ids data w = (Raised e, w')).
Proof.
  induction ids as [|sid rest IH]; intros data w; [left; eauto|].
  cbn [for_sensors]. destruct (bv !! sid) as [b|] eqn:Hb.
  - rewrite (bind_returned _ _ _ _ _ (make_data_point_run t bv sid b w Hb)). apply IH.
  - rewrite (bind_raised _ _ _ _ _ (make_data_point_missing t bv sid w Hb)). right; eauto.
Qed.

Lemma datetime_add_cases t d w :
  datetime_add t d w = (Returned (t + d), w)
  \/ exists msg, datetime_add t d w = (Raised (OverflowError msg), w).
Proof. unfold datetime_add. destruct (datetime_valid _); [now left | right; eauto]. Qed.

(** With a positive interval the loop stops by itself: a budget above the
    number of sample instants is never used up. *)
Lemma while_loop_within_budget fuel :
  forall (t end_date : datetime) bv ids (interval : Z) data w,
  0 < interval ->
  (n_instants t end_date (interval * US_PER_MINUTE)%Z < fuel)%nat ->
  fst (while_loop fuel t end_date bv ids interval data w) <> OutOfFuel.
Proof.
  induction fuel as [|fuel IH]; intros t end_date bv ids interval data w Hi Hfuel; [lia|].
  cbn [while_loop]. destruct (Z.leb_spec t end_date) as [Hle|Hgt]; [|discriminate].
  rewrite (n_instants_step t) in Hfuel by (auto using step_pos).
  destruct (for_sensors_cases t bv ids data w) as [(d & w1 & H)|(e & w1 & H)].
  2:{ now rewrite (bind_raised _ _ _ _ _ H). }
  rewrite (bind_returned _ _ _ _ _ H). unfold timedelta_minutes.
  destruct (make_timedelta_cases (interval * US_PER_MINUTE) w1) as [Hs|[msg Hs]].
  2:{ now rewrite (bind_raised _ _ _ _ _ Hs). }
  rewrite (bind_returned _ _ _ _ _ Hs).
  destruct (datetime_add_cases t (interval * US_PER_MINUTE) w1) as [Ha|[msg Ha]].
  2:{ now rewrite (bind_raised _ _ _ _ _ Ha). }
  rewrite (bind_returned _ _ _ _ _ Ha). apply IH; [done | lia].
Qed.

Lemma generate_within_budget fuel (start_date end_date : datetime) ids (interval : Z) w :
  0 < interval ->
  (n_instants start_date end_date (interval * US_PER_MINUTE)%Z < fuel)%nat ->
  fst (generate_simulated_data fuel start_date end_date ids interval w) <> OutOfFuel.
Proof. intros Hi Hf. rewrite generate_unfold. now apply while_loop_within_budget. Qed.

(** The body and handler shared by the wrappers that answer with a list. *)
Lemma list_wrapper_returns (body : M (list data_point)) (prefix : string) w :
  fst (body w) <> OutOfFuel ->
  exists data w',
    try_except (do data <- body ; ret (Some data))
               (fun e => run report_error (prefix +:+ str_exn e) ; ret (Some [])) w
    = (Returned (Some data), w').
Proof.
  intros H. unfold try_except, bind at 1.
  destruct (body w) as [[data|e|] w1]; cbn in *; [eauto | eauto | done].
Qed.

Lemma fetch_sensor_data_in_range_total fuel (start_date end_date : datetime) selected w :
  (n_instants start_date end_date (15 * US_PER_MINUTE)%Z < fuel)%nat ->
  exists data w',
    fetch_sensor_data_in_range fuel start_date end_date selected w
    = (Returned (Some data), w').
Proof.
  intros Hfuel.
  unfold fetch_sensor_data_in_range. apply list_wrapper_returns.
  destruct (names_one_sensor selected); now apply generate_within_budget.
Qed.


(** X9: no fetch wrapper lets an exception out, whatever the clock,
    the range, the sensor and the loop budget. *)
Theorem fetch_wrappers_never_raise :
  forall fuel start_date end_date sensor_id selected w e,
    fst (fetch_all_sensor_data fuel w) <> Raised e
    /\ fst (fetch_sensor_data_by_id fuel sensor_id w) <> Raised e
    /\ fst (fetch_sensor_data_in_range fuel start_date end_date selected w) <> Raised e.
Proof.
  intros. split; [|split].
  - apply fetch_all_sensor_data_never_raises.
  - apply fetch_sensor_data_by_id_never_raises.
  - apply fetch_sensor_data_in_range_never_raises.
Qed.

(** X10: the date-range wrapper always answers with a list, never with
    [None]: the generated series, or the empty list after a fault.  The
    budget only has to cover the sample instants of the range at the fixed
    interval of 15 minutes. *)
Theorem fetch_in_range_returns_a_list :
  forall fuel (start_date end_date : datetime) selected w,
    (n_instants start_date end_date (15 * US_PER_MINUTE)%Z < fuel)%nat ->
    exists data w',
      fetch_sensor_data_in_range fuel start_date end_date selected w
      = (Returned (Some data), w').
Proof. exact fetch_sensor_data_in_range_total. Qed.

Lemma fetch_in_range_returns_a_list_witness :
  (n_instants (mk_datetime 2024 1 1 0 0) (mk_datetime 2024 1 1 1 0) (15 * US_PER_MINUTE)%Z
   < 6)%nat
  /\ exists data w',
       fetch_sensor_data_in_range 6 (mk_datetime 2024 1 1 0 0) (mk_datetime 2024 1 1 1 0)
                                  (Some "All") world0 = (Returned (Some data), w')
       /\ length data = 15%nat.
Proof.
  assert (H : (n_instants (mk_datetime 2024 1 1 0 0) (mk_datetime 2024 1 1 1 0)
                 (15 * US_PER_MINUTE)%Z < 6)%nat) by (vm_compute; lia).
  split; [exact H|].
  destruct (fetch_in_range_returns_a_list 6 _ _ (Some "All") world0 H) as (data & w' & Hrun).
  exists data, w'. split; [exact Hrun|].
  assert (Hc : fst (fetch_sensor_data_in_range 6 (mk_datetime 2024 1 1 0 0)
                      (mk_datetime 2024 1 1 1 0) (Some "All") world0)
               = Returned (Some data)) by now rewrite Hrun.
  vm_compute in Hc. inversion Hc. reflexivity.
Defined.



(** ** The cursor over several runs *)

Lemma df_len_positive df : df_empty df = false -> (0 < df_len df)%nat.
Proof.
  unfold df_empty, df_len. destruct (rows df); [discriminate | cbn; lia].
Qed.

(** What one call leaves as the cursor, whatever the session held. *)
Lemma simulate_index pd df simulation_speed ss :
  df_empty df = false -> has_column "timestamp" df = true ->
  simulation_index (snd (simulate_real_time_data pd df simulation_speed ss))
  = Some ((starting_cursor df ss + simulation_speed) mod df_len df)%nat.
Proof.
  intros He Hc. unfold simulate_real_time_data, starting_cursor.
  rewrite He, Hc. cbn [orb negb]. cbv beta iota zeta.
  rewrite sort_values_timestamp_len.
  destruct (simulation_index ss) as [c|] eqn:E;
    cbn [snd simulation_index set_simulation_index default]; rewrite ?E;
    cbn [default]; unfold Datatypes.id; [reflexivity|].
  destruct (Nat.leb_spec (df_len df) 0); [|reflexivity].
  pose proof (df_len_positive df He). lia.
Qed.

(** The fields a call does not write. *)
Lemma simulate_frame pd df simulation_speed ss :
  sensor_data (snd (simulate_real_time_data pd df simulation_speed ss)) = sensor_data ss
  /\ last_refresh (snd (simulate_real_time_data pd df simulation_speed ss))
     = last_refresh ss
  /\ real_time_buffer (snd (simulate_real_time_data pd df simulation_speed ss))
     = real_time_buffer ss.
Proof.
  unfold simulate_real_time_data.
  destruct (_ || _); [done|]. destruct (simulation_index ss); done.
Qed.

Lemma simulate_slice_bound pd df simulation_speed ss d :
  fst (simulate_real_time_data pd df simulation_speed ss) = Some d ->
  (df_len d <= simulation_speed)%nat.
Proof.
  unfold simulate_real_time_data. destruct (_ || _); [discriminate|].
  cbn [fst]. intros H. inversion H. unfold df_len, iloc. cbn [rows].
  rewrite length_take. lia.
Qed.

(** X12: after a call on a non-empty batch the session always holds a
    cursor, and the cursor is a valid position of the batch, whether the
    session held no cursor before, a valid one, or one past the end. *)
Theorem simulate_leaves_valid_cursor :
  forall (pd : Pandas) (df : DataFrame) (simulation_speed : nat) (ss : SessionState),
    df_empty df = false -> has_column "timestamp" df = true ->
    exists i,
      simulation_index (snd (simulate_real_time_data pd df simulation_speed ss)) = Some i
      /\ (i < df_len df)%nat.
Proof.
  intros pd df speed ss He Hc. eexists. split; [now apply simulate_index|].
  apply Nat.mod_upper_bound. pose proof (df_len_positive df He). lia.
Qed.

(** A session without a cursor and one whose cursor lies far past the end. *)
Lemma simulate_leaves_valid_cursor_witness :
  df_empty (numbered_frame 0 10) = false
  /\ has_column "timestamp" (numbered_frame 0 10) = true
  /\ simulation_index
       (snd (simulate_real_time_data pandas_returning (numbered_frame 0 10) 3 session0))
     = Some 3%nat
  /\ exists i,
       simulation_index
         (snd (simulate_real_time_data pandas_returning (numbered_frame 0 10) 3
                 session_playing))
       = Some i
       /\ (i < df_len (numbered_frame 0 10))%nat.
Proof.
  assert (H1 : df_empty (numbered_frame 0 10) = false) by reflexivity.
  assert (H2 : has_column "timestamp" (numbered_frame 0 10) = true) by reflexivity.
  split; [exact H1|]. split; [exact H2|]. split; [vm_compute; reflexivity|].
  exact (simulate_leaves_valid_cursor pandas_returning (numbered_frame 0 10) 3
           session_playing H1 H2).
Defined.

Lemma ticks_index pd k : forall df simulation_speed ss,
  df_empty df = false -> has_column "timestamp" df = true ->
  simulation_index (ticks pd (S k) df simulation_speed ss)
  = Some ((starting_cursor df ss + S k * simulation_speed) mod df_len df)%nat.
Proof.
  induction k as [|k IH]; intros df speed ss He Hc.
  - cbn [ticks]. rewrite simulate_index by done. f_equal. f_equal. lia.
  - change (ticks pd (S (S k)) df speed ss)
      with (ticks pd (S k) df speed (snd (simulate_real_time_data pd df speed ss))).
    rewrite IH by done. f_equal.
    assert (Hs : starting_cursor df (snd (simulate_real_time_data pd df speed ss))
                 = ((starting_cursor df ss + speed) mod df_len df)%nat).
    { unfold starting_cursor at 1. rewrite simulate_index by done.
      pose proof (df_len_positive df He) as Hpos.
      pose proof (Nat.mod_upper_bound (starting_cursor df ss + speed) (df_len df)
                    ltac:(lia)) as Hlt.
      destruct (Nat.leb_spec (df_len df)
                  ((starting_cursor df ss + speed) mod df_len df)); [lia | reflexivity]. }
    rewrite Hs, Nat.Div0.add_mod_idemp_l. f_equal. lia.
Qed.

(** X13: playback runs round the batch.  After [k >= 1] calls at a fixed
    step on the same non-empty batch the cursor is
    [(c + k * step) mod len(batch)], where [c] is the cursor the first call
    started from; with a step of 1 it is back at [c] after [len(batch)]
    calls. *)
Theorem playback_goes_round :
  forall (pd : Pandas) (k : nat) (df : DataFrame) (simulation_speed : nat)
         (ss : SessionState),
    df_empty df = false -> has_column "timestamp" df = true ->
    simulation_index (ticks pd (S k) df simulation_speed ss)
    = Some ((starting_cursor df ss + S k * simulation_speed) mod df_len df)%nat
    /\ simulation_index (ticks pd (df_len df) df 1 ss) = Some (starting_cursor df ss)
    /\ real_time_buffer (ticks pd (S k) df simulation_speed ss) = real_time_buffer ss.
Proof.
  intros pd k df speed ss He Hc. split; [now apply ticks_index|]. split.
  - pose proof (df_len_positive df He) as Hpos.
    destruct (df_len df) as [|n] eqn:Hn; [lia|].
    rewrite ticks_index, Hn by done.
    replace (starting_cursor df ss + S n * 1)%nat
      with (starting_cursor df ss + 1 * S n)%nat by lia.
    rewrite Nat.Div0.mod_add. f_equal. apply Nat.mod_small.
    unfold starting_cursor. destruct (simulation_index ss) as [c|]; [|lia].
    rewrite Hn. destruct (Nat.leb_spec (S n) c); lia.
  - clear. revert ss. induction (S k) as [|j IH]; intros ss; [done|].
    cbn [ticks]. rewrite IH. apply simulate_frame.
Qed.

(** Ten rows, step 3, from the cursor 8: the calls leave 1, 4, 7, 0. *)
Lemma playback_goes_round_witness :
  df_empty (numbered_frame 0 10) = false
  /\ has_column "timestamp" (numbered_frame 0 10) = true
  /\ simulation_index
       (ticks pandas_returning 4 (numbered_frame 0 10) 3
              (mkSession None None (Some 8%nat) None))
     = Some 0%nat
  /\ simulation_index
       (ticks pandas_returning 10 (numbered_frame 0 10) 1
              (mkSession None None (Some 8%nat) None))
     = Some 8%nat.
Proof.
  assert (H1 : df_empty (numbered_frame 0 10) = false) by reflexivity.
  assert (H2 : has_column "timestamp" (numbered_frame 0 10) = true) by reflexivity.
  split; [exact H1|]. split; [exact H2|].
  destruct (playback_goes_round pandas_returning 3 (numbered_frame 0 10) 3
              (mkSession None None (Some 8%nat) None) H1 H2) as (Ha & _ & _).
  destruct (playback_goes_round pandas_returning 0 (numbered_frame 0 10) 1
              (mkSession None None (Some 8%nat) None) H1 H2) as (_ & Hb & _).
  split; [rewrite Ha; vm_compute; reflexivity | exact Hb].
Defined.

(** ** The script blocks *)

Lemma process_sensor_data_returns pd data w :
  exists df w',
    process_sensor_data pd data w = (Returned df, w')
    /\ session w' = session w /\ clock w' = clock w.
Proof.
  destruct (process_sensor_data_result pd data w) as (df & Hproc).
  exists df. eexists. split; [exact Hproc | apply logged_frame].
Qed.

Lemma fetch_selected_total fuel c w :
  (n_instants (start_datetime c) (end_datetime c) (15 * US_PER_MINUTE)%Z < fuel)%nat ->
  exists data w',
    fetch_selected fuel c w = (Returned (Some data), w') /\ session w' = session w.
Proof.
  intros Hfuel. pose proof (keeps_session_fetch_selected fuel c w) as Hs.
  unfold fetch_selected in *.
  destruct (decide (selected_sensor_id c = "All"));
    match goal with
    | |- context [fetch_sensor_data_in_range fuel ?s ?e ?o w] =>
        destruct (fetch_sensor_data_in_range_total fuel s e o w Hfuel) as (data & w' & H)
    end;
    rewrite H in Hs |- *; eauto.
Qed.

(** X14: a press of the Fetch Data button, in any session and with any
    widget values, ends with a batch in the session, no buffer, and the
    cursor at 0 if there was a cursor; the refresh time is the clock.  The
    budget only has to cover the sample instants of the selected range. *)
Theorem fetch_button_resets_cursor_and_buffer :
  forall pd fuel c w,
    fetch_clicked c = true ->
    (n_instants (start_datetime c) (end_datetime c) (15 * US_PER_MINUTE)%Z < fuel)%nat ->
    exists df w',
      fetch_button_block pd fuel c w = (Returned tt, w')
      /\ sensor_data (session w') = Some df
      /\ last_refresh (session w') = Some (clock w')
      /\ real_time_buffer (session w') = None
      /\ simulation_index (session w')
         = match simulation_index (session w) with
           | Some _ => Some 0%nat
           | None => None
           end.
Proof.
  intros pd fuel c w Hclick Hfuel. unfold fetch_button_block. rewrite Hclick.
  destruct (fetch_selected_total fuel c w Hfuel) as (data & w1 & Hfetch & Hsess).
  destruct (process_sensor_data_returns pd (Some data) w1) as (df & w2 & Hproc & Hs2 & _).
  exists df. unfold try_except.
  rewrite (bind_returned _ _ _ _ _ Hfetch). cbn [py_len].
  rewrite (bind_returned _ _ _ _ _ (eq_refl : ret (length data) w1 = (Returned _, w1))).
  rewrite (bind_returned _ _ _ _ _ Hproc).
  rewrite <- Hsess, <- Hs2. destruct w2 as [tape pos clk el ue [sd lr [si|] [rb|]]];
    cbn; eexists; repeat split.
Qed.

Lemma fetch_button_resets_cursor_and_buffer_witness :
  fetch_clicked controls_button = true
  /\ (n_instants (start_datetime controls_button) (end_datetime controls_button)
                 (15 * US_PER_MINUTE)%Z < 10)%nat
  /\ exists df w',
       fetch_button_block pandas_returning 10 controls_button world_playing
       = (Returned tt, w')
       /\ sensor_data (session w') = Some df
       /\ real_time_buffer (session w') = None
       /\ simulation_index (session w') = Some 0%nat.
Proof.
  assert (H1 : fetch_clicked controls_button = true) by reflexivity.
  assert (H2 : (n_instants (start_datetime controls_button) (end_datetime controls_button)
                           (15 * US_PER_MINUTE)%Z < 10)%nat) by (vm_compute; lia).
  split; [exact H1|]. split; [exact H2|].
  destruct (fetch_button_resets_cursor_and_buffer pandas_returning 10 controls_button
              world_playing H1 H2)
    as (df & w' & Hrun & Hsd & _ & Hbuf & Hidx).
  exists df, w'. repeat split; assumption.
Defined.

Lemma keeps_session_py_len {A} (x : option (list A)) : keeps_session (py_len x).
Proof. unfold py_len. keeps. Qed.

Lemma keeps_session_fetch_all fuel : keeps_session (fetch_all_sensor_data fuel).
Proof.
  unfold fetch_all_sensor_data, timedelta_days, datetime_sub. keeps.
Qed.



(** ** The capacity of the buffer across runs of the script *)

Lemma preserves_bind P {A B} (c : M A) (k : A -> M B) :
  preserves P c -> (forall a, preserves P (k a)) -> preserves P (bind c k).
Proof.
  intros Hc Hk w HP. unfold bind. specialize (Hc w HP).
  destruct (c w) as [[a|e|] w']; cbn in *; try done.
  now apply Hk.
Qed.

Lemma preserves_try_except P {A} (body : M A) handler :
  preserves P body -> (forall e, preserves P (handler e)) ->
  preserves P (try_except body handler).
Proof.
  intros Hb Hh w HP. unfold try_except. specialize (Hb w HP).
  destruct (body w) as [[a|e|] w']; cbn in *; try done.
  now apply Hh.
Qed.

Lemma keeps_session_preserves P {A} (c : M A) : keeps_session c -> preserves P c.
Proof. intros H w HP. now rewrite H. Qed.

Lemma keeps_playback_preserves_capacity {A} (c : M A) :
  keeps_playback c -> preserves buffer_within_capacity c.
Proof. intros H w HP b Hb. apply HP. destruct (H w) as [_ <-]. exact Hb. Qed.

Lemma reset_simulation_index_capacity : preserves buffer_within_capacity reset_simulation_index.
Proof.
  intros w HP. unfold reset_simulation_index, bind, get_session.
  destruct (simulation_index (session w)); exact HP.
Qed.

Lemma clear_real_time_buffer_capacity : preserves buffer_within_capacity clear_real_time_buffer.
Proof.
  intros w HP. unfold clear_real_time_buffer, bind, get_session.
  destruct (real_time_buffer (session w)) eqn:E; [|exact HP].
  intros b Hb. discriminate.
Qed.

Lemma fetch_button_block_capacity pd fuel c :
  preserves buffer_within_capacity (fetch_button_block pd fuel c).
Proof.
  unfold fetch_button_block. destruct (fetch_clicked c);
    [|apply keeps_session_preserves; keeps].
  apply preserves_try_except;
    [|intros e; apply keeps_session_preserves; keeps].
  apply preserves_bind;
    [apply keeps_session_preserves, keeps_session_fetch_selected|]. intros sensor_data.
  apply preserves_bind; [apply keeps_session_preserves, keeps_session_py_len|]. intros _.
  apply preserves_bind; [apply keeps_session_preserves, keeps_session_process|]. intros df.
  apply preserves_bind;
    [apply keeps_playback_preserves_capacity, keeps_playback_store_batch|]. intros _.
  apply preserves_bind; [apply reset_simulation_index_capacity|]. intros _.
  apply preserves_bind; [apply clear_real_time_buffer_capacity|]. intros _.
  apply preserves_bind; [apply keeps_session_preserves, keeps_session_py_len|]. intros _.
  apply keeps_session_preserves. keeps.
Qed.

Lemma initial_load_block_capacity pd fuel :
  preserves buffer_within_capacity (initial_load_block pd fuel).
Proof.
  unfold initial_load_block.
  apply preserves_bind; [apply keeps_session_preserves; keeps|]. intros ss.
  destruct (sensor_data ss); [apply keeps_session_preserves; keeps|].
  apply preserves_try_except.
  - apply preserves_bind;
      [apply keeps_session_preserves, keeps_session_fetch_all|]. intros sensor_data.
    apply preserves_bind; [apply keeps_session_preserves, keeps_session_py_len|]. intros _.
    apply preserves_bind; [apply keeps_session_preserves, keeps_session_process|]. intros df.
    apply keeps_playback_preserves_capacity, keeps_playback_store_batch.
  - intros e. apply preserves_bind; [apply keeps_session_preserves; keeps|]. intros _.
    apply keeps_playback_preserves_capacity, keeps_playback_store_batch.
Qed.

Lemma update_real_time_buffer_capacity d ss :
  (df_len d <= MAX_BUFFER_SIZE)%nat ->
  buffer_within_capacity (update_real_time_buffer d ss).
Proof.
  intros Hd b Hb. destruct (real_time_buffer ss) as [old|] eqn:E.
  - destruct (update_existing_buffer_bounded d ss old E) as (b' & Hb' & Hlen).
    congruence.
  - unfold update_real_time_buffer in Hb. rewrite E in Hb. cbn in Hb. congruence.
Qed.

Lemma simulation_block_capacity pd c :
  (simulation_speed c <= MAX_BUFFER_SIZE)%nat ->
  preserves buffer_within_capacity (simulation_block pd c).
Proof.
  intros Hspeed w HP. unfold simulation_block, bind at 1, get_session.
  destruct (sensor_data (session w)) as [base_df|]; [|exact HP].
  destruct (simulation_mode c && negb (df_empty base_df)); [|exact HP].
  pose proof (simulate_frame pd base_df (simulation_speed c) (session w)) as (_ & _ & Hbuf).
  pose proof (simulate_slice_bound pd base_df (simulation_speed c) (session w)) as Hslice.
  destruct (simulate_real_time_data pd base_df (simulation_speed c) (session w))
    as [new_data_point ss'].
  cbn [fst snd] in *.
  destruct new_data_point as [d|]; cbn [has_new_rows];
    [|intros b Hb; apply HP; cbn in Hb; congruence].
  destruct (negb (df_empty d));
    [|intros b Hb; apply HP; cbn in Hb; congruence].
  intros b Hb. cbn in Hb.
  eapply (update_real_time_buffer_capacity d ss'); [|exact Hb].
  specialize (Hslice d eq_refl). lia.
Qed.

(** X16: the capacity of the buffer is an invariant of the script.  With a
    simulation speed of at most 100 points per tick (the slider allows 1 to
    10), a session whose buffer holds at most 100 rows is followed by one
    whose buffer holds at most 100 rows, whatever the widgets, the clock
    and the outcome of the fetches; a session without buffer is such a
    session. *)
Theorem run_script_keeps_buffer_within_capacity :
  forall pd fuel c w,
    (simulation_speed c <= MAX_BUFFER_SIZE)%nat ->
    buffer_within_capacity (session w) ->
    buffer_within_capacity (session (snd (run_script pd fuel c w))).
Proof.
  intros pd fuel c w Hspeed. revert w.
  change (preserves buffer_within_capacity (run_script pd fuel c)).
  unfold run_script.
  apply preserves_bind; [apply fetch_button_block_capacity|]. intros _.
  apply preserves_bind; [apply initial_load_block_capacity|]. intros _.
  apply preserves_bind;
    [apply keeps_playback_preserves_capacity, keeps_playback_auto_refresh_block|].
  intros _. now apply simulation_block_capacity.
Qed.

(** A run in simulation mode at speed 10 from the session in mid-playback. *)
Lemma run_script_keeps_buffer_within_capacity_witness :
  (10 <= MAX_BUFFER_SIZE)%nat
  /\ buffer_within_capacity session_playing
  /\ buffer_within_capacity
       (session (snd (run_script pandas_returning 10
                        (mkControls false 30 true 10 (mk_datetime 2024 1 1 0 0)
                                    (mk_datetime 2024 1 1 1 0) "All" false)
                        world_playing))).
Proof.
  assert (H1 : (10 <= MAX_BUFFER_SIZE)%nat) by (vm_compute; lia).
  assert (H2 : buffer_within_capacity session_playing).
  { intros b Hb. inversion Hb. vm_compute. lia. }
  split; [exact H1|]. split; [exact H2|].
  exact (run_script_keeps_buffer_within_capacity pandas_returning 10
           (mkControls false 30 true 10 (mk_datetime 2024 1 1 0 0)
                       (mk_datetime 2024 1 1 1 0) "All" false)
           world_playing H1 H2).
Defined.

(** ** What fetching and processing leave alone *)

Lemma keeps_session_fetch_by_id fuel sensor_id :
  keeps_session (fetch_sensor_data_by_id fuel sensor_id).
Proof.
  unfold fetch_sensor_data_by_id, timedelta_days, datetime_sub. keeps.
Qed.

(** X17: generating, fetching and post-processing never write to the
    session: whatever they return or raise, the batch, the refresh time,
    the cursor and the buffer are as before. *)
Theorem fetch_and_process_keep_the_session :
  forall pd fuel start_date end_date ids interval sensor_id selected data w,
    session (snd (generate_simulated_data fuel start_date end_date ids interval w))
    = session w
    /\ session (snd (fetch_all_sensor_data fuel w)) = session w
    /\ session (snd (fetch_sensor_data_by_id fuel sensor_id w)) = session w
    /\ session (snd (fetch_sensor_data_in_range fuel start_date end_date selected w))
       = session w
    /\ session (snd (process_sensor_data pd data w)) = session w.
Proof.
  intros. split; [apply keeps_session_generate|].
  split; [apply keeps_session_fetch_all|].
  split; [apply keeps_session_fetch_by_id|].
  split; [apply keeps_session_fetch_in_range | apply keeps_session_process].
Qed.

(** ** The options of the sensor select box *)

Lemma unique_elem l : forall x, x ∈ unique l <-> x ∈ l.
Proof.
  induction l as [|y r IH]; intros x; cbn [unique]; [done|].
  rewrite !elem_of_cons, list_elem_of_filter, IH.
  destruct (decide (x = y)); tauto.
Qed.

Lemma filter_all (P : string -> Prop) `{!forall x, Decision (P x)} (l : list string) :
  (forall x, x ∈ l -> P x) -> filter P l = l.
Proof.
  induction l as [|y r IH]; intros Hall; [done|].
  rewrite filter_cons_True by (apply Hall; left). f_equal.
  apply IH. intros x Hx. apply Hall. now right.
Qed.

Lemma filter_none (P : string -> Prop) `{!forall x, Decision (P x)} (l : list string) :
  (forall x, x ∈ l -> ~ P x) -> filter P l = [].
Proof.
  induction l as [|y r IH]; intros Hnone; [done|].
  rewrite filter_cons_False by (apply Hnone; left).
  apply IH. intros x Hx. apply Hnone. now right.
Qed.

Lemma unique_NoDup_id l : NoDup l -> unique l = l.
Proof.
  induction 1 as [|x r Hx Hr IH]; cbn [unique]; [done|].
  rewrite IH. f_equal. apply filter_all. intros y Hy ->. done.
Qed.

Lemma unique_app l1 : forall l2,
  unique (l1 ++ l2) = unique l1 ++ filter (fun y => y ∉ l1) (unique l2).
Proof.
  induction l1 as [|x r IH]; intros l2; cbn [app unique].
  - symmetry. apply filter_all. intros y _. apply not_elem_of_nil.
  - rewrite IH, filter_app, list_filter_filter. do 2 f_equal.
    apply list_filter_iff. intros y. rewrite not_elem_of_cons. tauto.
Qed.

(** A list followed by lists of its own elements has the unique values of
    the list itself. *)
Lemma unique_absorbs (ids rest : list string) :
  NoDup ids -> (forall x, x ∈ rest -> x ∈ ids) -> unique (ids ++ rest) = ids.
Proof.
  intros Hnd Hsub. rewrite unique_app, unique_NoDup_id by done.
  rewrite filter_none; [apply app_nil_r|].
  intros x Hx Hn. apply Hn, Hsub. now apply unique_elem.
Qed.

Lemma series_ids m : forall t step bv tape p ids x,
  x ∈ map id (series m t step bv tape p ids) -> x ∈ ids.
Proof.
  induction m as [|m IH]; intros t step bv tape p ids x H; cbn [series] in H.
  - now apply elem_of_nil in H.
  - rewrite map_app in H. apply elem_of_app in H as [H|H]; [|eauto].
    assert (Hb : map id (block t bv tape p ids) = ids).
    { clear. revert p. induction ids as [|y r IH]; intros p; cbn; [done|].
      now rewrite IH. }
    now rewrite Hb in H.
Qed.

Lemma series_ids_unique m : forall t step bv tape p ids,
  NoDup ids -> unique (map id (series (S m) t step bv tape p ids)) = ids.
Proof.
  intros t step bv tape p ids Hnd. cbn [series]. rewrite map_app.
  assert (Hb : map id (block t bv tape p ids) = ids).
  { clear. revert p. induction ids as [|y r IH]; intros p; cbn; [done|].
    now rewrite IH. }
  rewrite Hb. apply unique_absorbs; [done|]. intros x. apply series_ids.
Qed.

(** X18: the select box after a fetch.  When the session holds the
    processed series of a call of the generator for distinct sensors over a
    range with [start <= end], the box offers "All" followed by exactly
    those sensors, each once, in the order of the call; for the built-in
    sensors: All, sensor-001, sensor-002, sensor-003. *)
Theorem sensor_id_options_after_fetch :
  forall pd fuel (start_date end_date : datetime) ids interval w out w1 w2 df w3 ss,
    start_date <= end_date ->
    NoDup (effective_sensor_ids ids) ->
    generate_simulated_data fuel start_date end_date ids interval w = (Returned out, w1) ->
    process_sensor_data pd (Some out) w2 = (Returned df, w3) ->
    sensor_data ss = Some df ->
    sensor_id_options ss = "All" :: effective_sensor_ids ids.
Proof.
  intros pd fuel start_date end_date ids interval w out w1 w2 df w3 ss
         Hle Hnd Hgen Hproc Hss.
  apply generate_returned in Hgen as (m & -> & Hm & _). specialize (Hm Hle).
  destruct m as [|m]; [lia|].
  set (s := series (S m) _ _ _ _ _ _) in *.
  assert (Hne : s <> []).
  { intros Hnil. apply (f_equal length) in Hnil. unfold s in Hnil.
    rewrite series_length in Hnil. cbn [length] in Hnil.
    pose proof (effective_sensor_ids_nonempty ids).
    destruct (effective_sensor_ids ids); [done | cbn in Hnil; lia]. }
  destruct s as [|p l] eqn:Hs; [done|].
  rewrite process_sensor_data_run in Hproc. inversion Hproc; subst df.
  unfold sensor_id_options. rewrite Hss. cbn [df_empty rows columns map negb].
  change (has_column "id" _) with true. cbv iota. f_equal.
  rewrite <- (series_ids_unique m start_date (interval * US_PER_MINUTE)
                 (base_values_of (effective_sensor_ids ids) ∅ (rand_tape w) (rand_pos w))
                 (rand_tape w) (2 * length (effective_sensor_ids ids) + rand_pos w)
                 (effective_sensor_ids ids) Hnd).
  fold s. rewrite Hs. f_equal.
  change (row_id (processed_row p) :: map row_id (map processed_row l))
    with (map row_id (map processed_row (p :: l))).
  rewrite map_map. reflexivity.
Qed.

(** The session after the button's fetch for all sensors. *)
Lemma sensor_id_options_after_fetch_witness :
  exists out w1 df,
    mk_datetime 2024 1 1 0 0 <= mk_datetime 2024 1 1 1 0
    /\ NoDup (effective_sensor_ids None)
    /\ generate_simulated_data 6 (mk_datetime 2024 1 1 0 0) (mk_datetime 2024 1 1 1 0)
                               None 15 world0 = (Returned out, w1)
    /\ process_sensor_data pandas_returning (Some out) w1 = (Returned df, w1)
    /\ sensor_id_options (mkSession (Some df) None None None)
       = ["All"; "sensor-001"; "sensor-002"; "sensor-003"].
Proof.
  assert (H1 : mk_datetime 2024 1 1 0 0 <= mk_datetime 2024 1 1 1 0)
    by (vm_compute; discriminate).
  assert (H2 : NoDup (effective_sensor_ids None))
    by (apply (bool_decide_unpack _); vm_compute; exact I).
  evar (out0 : list data_point). evar (w0 : World).
  assert (Hgen : generate_simulated_data 6 (mk_datetime 2024 1 1 0 0)
                   (mk_datetime 2024 1 1 1 0) None 15 world0 = (Returned out0, w0))
    by (subst out0 w0; vm_compute; reflexivity).
  evar (df : DataFrame).
  assert (Hproc : process_sensor_data pandas_returning (Some out0) w0 = (Returned df, w0))
    by (subst df; vm_compute; reflexivity).
  exists out0, w0, df. split; [exact H1|]. split; [exact H2|].
  split; [exact Hgen|]. split; [exact Hproc|].
  exact (sensor_id_options_after_fetch pandas_returning 6 _ _ None 15 world0 out0 w0 w0
           df w0
           (mkSession (Some df) None None None) H1 H2 Hgen Hproc eq_refl).
Defined.

(** ** Playback from a fresh batch *)

Lemma simulate_run pd df simulation_speed ss :
  df_empty df = false -> has_column "timestamp" df = true ->
  simulate_real_time_data pd df simulation_speed ss
  = (Some (iloc (sort_values_timestamp pd df) (starting_cursor df ss)
                (starting_cursor df ss + simulation_speed)),
     set_simulation_index ss
       ((starting_cursor df ss + simulation_speed) mod df_len df)).
Proof.
  intros He Hc. unfold simulate_real_time_data, starting_cursor.
  rewrite He, Hc. cbn [orb negb]. cbv beta iota zeta.
  rewrite sort_values_timestamp_len.
  destruct (simulation_index ss) as [c|] eqn:E; rewrite ?E; cbn [default];
    [reflexivity|].
  cbn [simulation_index set_simulation_index default]. unfold Datatypes.id.
  pose proof (df_len_positive df He).
  destruct (Nat.leb_spec (df_len df) 0); [lia|]. reflexivity.
Qed.

Lemma update_real_time_buffer_frame d ss :
  sensor_data (update_real_time_buffer d ss) = sensor_data ss
  /\ simulation_index (update_real_time_buffer d ss) = simulation_index ss.
Proof. unfold update_real_time_buffer. destruct (real_time_buffer ss); done. Qed.

(** One run of the simulation block on a non-empty batch, from a cursor
    that leaves room for a whole step. *)
Lemma simulation_block_step pd c w df :
  simulation_mode c = true ->
  sensor_data (session w) = Some df ->
  df_empty df = false -> has_column "timestamp" df = true ->
  (1 <= simulation_speed c)%nat ->
  (starting_cursor df (session w) + simulation_speed c <= df_len df)%nat ->
  (length (buffer_rows (session w)) + simulation_speed c <= MAX_BUFFER_SIZE)%nat ->
  exists b w',
    simulation_block pd c w = (Returned tt, w')
    /\ sensor_data (session w') = Some df
    /\ simulation_index (session w')
       = Some ((starting_cursor df (session w) + simulation_speed c) mod df_len df)%nat
    /\ real_time_buffer (session w') = Some b
    /\ rows b = buffer_rows (session w)
                ++ take (simulation_speed c)
                        (drop (starting_cursor df (session w))
                              (rows (sort_values_timestamp pd df))).
Proof.
  intros Hmode Hsd He Hc Hs Hroom Hcap.
  set (c0 := starting_cursor df (session w)) in *.
  set (sorted := sort_values_timestamp pd df) in *.
  set (slice := take (simulation_speed c) (drop c0 (rows sorted))).
  assert (Hlen : length slice = simulation_speed c).
  { unfold slice. rewrite length_take, length_drop.
    fold (df_len sorted). unfold sorted. rewrite sort_values_timestamp_len. lia. }
  assert (Hcols : columns df <> []).
  { unfold df_empty in He. destruct (rows df), (columns df); done. }
  unfold simulation_block, bind at 1, get_session. rewrite Hsd, Hmode, He.
  cbn [andb negb]. rewrite (simulate_run pd df (simulation_speed c) (session w) He Hc).
  fold c0 sorted.
  replace (iloc sorted c0 (c0 + simulation_speed c)) with (mkFrame (columns df) slice)
    by (unfold iloc, slice; cbn [columns sorted sort_values_timestamp]; do 2 f_equal; lia).
  assert (Hnew : has_new_rows (Some (mkFrame (columns df) slice)) = true).
  { cbn. unfold df_empty. cbn [rows columns].
    destruct slice; [cbn in Hlen; lia|]. destruct (columns df); done. }
  rewrite Hnew.
  destruct w as [tape pos clk el ue ss]. cbn [session] in *.
  set (d := mkFrame (columns df) slice).
  set (ss' := set_simulation_index ss ((c0 + simulation_speed c) mod df_len df)).
  assert (Hb : exists b, real_time_buffer (update_real_time_buffer d ss') = Some b
                         /\ rows b = buffer_rows ss ++ slice).
  { unfold buffer_rows in *. destruct (real_time_buffer ss) as [old|] eqn:E.
    - destruct (update_existing_buffer d ss' old E) as (b & Hb & Hr).
      exists b. split; [exact Hb|]. rewrite Hr. apply last_rows_all.
      rewrite length_app. cbn [rows d]. lia.
    - exists d. unfold update_real_time_buffer.
      change (real_time_buffer ss') with (real_time_buffer ss). rewrite E.
      split; reflexivity. }
  destruct Hb as (b & Hb & Hrows).
  exists b, (mkWorld tape pos clk el ue
                     (set_last_refresh (update_real_time_buffer d ss') clk)).
  split; [reflexivity|].
  destruct (update_real_time_buffer_frame d ss') as (Hf1 & Hf2).
  cbn [session set_last_refresh sensor_data simulation_index real_time_buffer].
  rewrite Hf1, Hf2. repeat split; try done.
Qed.

Lemma simulation_ticks_replay pd n : forall (j : nat) c w df,
  simulation_mode c = true ->
  sensor_data (session w) = Some df ->
  df_empty df = false -> has_column "timestamp" df = true ->
  (1 <= simulation_speed c)%nat ->
  starting_cursor df (session w) = (j * simulation_speed c)%nat ->
  buffer_rows (session w)
  = take (j * simulation_speed c) (rows (sort_values_timestamp pd df)) ->
  ((j + S n) * simulation_speed c <= df_len df)%nat ->
  ((j + S n) * simulation_speed c <= MAX_BUFFER_SIZE)%nat ->
  exists b w',
    simulation_ticks pd (S n) c w = (Returned tt, w')
    /\ sensor_data (session w') = Some df
    /\ simulation_index (session w')
       = Some (((j + S n) * simulation_speed c) mod df_len df)%nat
    /\ real_time_buffer (session w') = Some b
    /\ rows b = take ((j + S n) * simulation_speed c) (rows (sort_values_timestamp pd df)).
Proof.
  induction n as [|n IH]; intros j c w df Hmode Hsd He Hc Hs Hcur Hbuf Hlen Hcap.
  - assert (Hb : length (buffer_rows (session w)) = (j * simulation_speed c)%nat).
    { rewrite Hbuf, length_take. fold (df_len (sort_values_timestamp pd df)).
      rewrite sort_values_timestamp_len. lia. }
    destruct (simulation_block_step pd c w df Hmode Hsd He Hc Hs ltac:(lia) ltac:(lia))
      as (b & w' & Hrun & Hsd' & Hidx & Hrb & Hrows).
    exists b, w'. cbn [simulation_ticks]. rewrite (bind_returned _ _ _ _ _ Hrun).
    split; [reflexivity|]. split; [exact Hsd'|].
    split; [rewrite Hidx, Hcur; do 2 f_equal; lia|].
    split; [exact Hrb|].
    rewrite Hrows, Hbuf, Hcur, take_take_drop. f_equal. lia.
  - assert (Hb : length (buffer_rows (session w)) = (j * simulation_speed c)%nat).
    { rewrite Hbuf, length_take. fold (df_len (sort_values_timestamp pd df)).
      rewrite sort_values_timestamp_len. nia. }
    destruct (simulation_block_step pd c w df Hmode Hsd He Hc Hs ltac:(nia) ltac:(nia))
      as (b & w1 & Hrun & Hsd' & Hidx & Hrb & Hrows).
    change (simulation_ticks pd (S (S n)) c w)
      with (bind (simulation_block pd c) (fun _ => simulation_ticks pd (S n) c) w).
    rewrite (bind_returned _ _ _ _ _ Hrun).
    assert (Hnext : (starting_cursor df (session w) + simulation_speed c
                     = S j * simulation_speed c)%nat) by (rewrite Hcur; lia).
    assert (Hsmall : (S j * simulation_speed c < df_len df)%nat) by nia.
    destruct (IH (S j) c w1 df Hmode Hsd' He Hc Hs) as (b' & w' & H);
      try (replace (S j + S n)%nat with (j + S (S n))%nat by lia; assumption).
    + unfold starting_cursor. rewrite Hidx, Hnext, Nat.mod_small by done.
      destruct (Nat.leb_spec (df_len df) (S j * simulation_speed c)); [lia | reflexivity].
    + unfold buffer_rows. rewrite Hrb, Hrows, Hbuf, Hcur, take_take_drop. f_equal. lia.
    + replace (S j + S n)%nat with (j + S (S n))%nat in H by lia.
      exists b', w'. exact H.
Qed.

(** X19: playback replays the batch in order.  From a session that holds a
    non-empty batch, no buffer, and a cursor that starts at 0, [k >= 1]
    runs of the simulation block at [step] points per run, with
    [k * step] within both the length of the batch and the capacity of the
    buffer, leave the first [k * step] rows of the timestamp-sorted batch
    in the buffer, in order, the cursor at [(k * step) mod len(batch)], and
    the batch itself as it was.  The sorted batch is the one the library's
    sort returns, whatever it does with equal timestamps: the buffer is in
    non-decreasing timestamp order and holds rows of the batch only. *)
Theorem playback_replays_the_batch :
  forall (pd : Pandas) (k : nat) c w df,
    simulation_mode c = true ->
    sensor_data (session w) = Some df ->
    df_empty df = false -> has_column "timestamp" df = true ->
    real_time_buffer (session w) = None ->
    starting_cursor df (session w) = 0%nat ->
    (1 <= simulation_speed c)%nat ->
    (S k * simulation_speed c <= df_len df)%nat ->
    (S k * simulation_speed c <= MAX_BUFFER_SIZE)%nat ->
    exists b w',
      simulation_ticks pd (S k) c w = (Returned tt, w')
      /\ sensor_data (session w') = Some df
      /\ simulation_index (session w')
         = Some ((S k * simulation_speed c) mod df_len df)%nat
      /\ real_time_buffer (session w') = Some b
      /\ rows b = take (S k * simulation_speed c) (rows (sort_values_timestamp pd df))
      /\ StronglySorted timestamp_le (rows b)
      /\ (forall r, r ∈ rows b -> r ∈ rows df).
Proof.
  intros pd k c w df Hmode Hsd He Hc Hbuf Hcur Hs Hlen Hcap.
  destruct (simulation_ticks_replay pd k 0 c w df) as (b & w' & Hrun & Hd & Hi & Hb & Hr);
    try done.
  { unfold buffer_rows. now rewrite Hbuf. }
  exists b, w'. repeat (split; [assumption|]). rewrite Hr. split.
  - pose proof (sort_values_timestamp_sorted pd df) as Hsorted.
    rewrite <- (take_drop (S k * simulation_speed c)) in Hsorted.
    now apply StronglySorted_app_1_l in Hsorted.
  - intros r Hin. rewrite <- (sort_values_timestamp_perm pd df).
    rewrite <- (take_drop (S k * simulation_speed c) (rows (sort_values_timestamp pd df))).
    apply elem_of_app. now left.
Qed.

(** Three runs at speed 4 over a batch of 20 rows: the buffer holds the
    rows numbered 0 to 11 and the cursor stands at 12. *)
Lemma playback_replays_the_batch_witness :
  exists b w',
    simulation_ticks pandas_returning 3 (mkControls false 30 true 4 0 0 "All" false)
      (mkWorld (rand_tape world0) 0 0 [] []
               (mkSession (Some (numbered_frame 0 20)) None None None))
    = (Returned tt, w')
    /\ real_time_buffer (session w') = Some b
    /\ rows b = numbered_rows 0 12
    /\ simulation_index (session w') = Some 12%nat.
Proof.
  destruct (playback_replays_the_batch pandas_returning 2
              (mkControls false 30 true 4 0 0 "All" false)
              (mkWorld (rand_tape world0) 0 0 [] []
                       (mkSession (Some (numbered_frame 0 20)) None None None))
              (numbered_frame 0 20) eq_refl eq_refl eq_refl eq_refl eq_refl eq_refl)
    as (b & w' & Hrun & _ & Hidx & Hb & Hrows & _).
  - vm_compute; lia.
  - vm_compute; lia.
  - vm_compute; lia.
  - exists b, w'. split; [exact Hrun|]. split; [exact Hb|].
    split; [rewrite Hrows; vm_compute; reflexivity | rewrite Hidx; vm_compute; reflexivity].
Defined.
